(** * Personalized CSV Creator: the value formatter and the line serializer

    A shallow embedding of [app.py]: the string built-ins the code relies
    on, the settings read from the Tk variables, [validate_settings],
    [format_number], and the generator [iter_csv_lines] with its nested
    helpers [convert_value], [needs_quote], [escape_text] and
    [format_cells]. *)

From Stdlib Require Import String Ascii.
From Stdlib Require Import Numbers.DecimalString Floats.SpecFloat.
From Stdlib Require Import ZArith NArith Bool Lia List Sorted.
Import ListNotations.

Local Open Scope list_scope.

(** ** Python strings

    A Python [str] is a sequence of Unicode code points; [len] counts code
    points, so a character is a code point and not a byte. *)

Definition char := N.
Definition str := list char.

(** ASCII-only literals. *)
Definition lit (s : string) : str := map N_of_ascii (list_ascii_of_string s).

Definition DQUOTE : char := 34%N.
Definition LF : char := 10%N.
Definition CR : char := 13%N.
Definition TAB : char := 9%N.
Definition BACKSLASH : char := 92%N.
Definition ELLIPSIS : char := 8230%N.

Module PyStr.

Fixpoint eqb (a b : str) : bool :=
  match a, b with
  | [], [] => true
  | x :: a', y :: b' => N.eqb x y && eqb a' b'
  | _, _ => false
  end.

(** [text.startswith(p)] *)
Fixpoint startswith (p text : str) : bool :=
  match p, text with
  | [], _ => true
  | _ :: _, [] => false
  | x :: p', y :: t' => N.eqb x y && startswith p' t'
  end.

(** [sub in text] *)
Fixpoint contains (sub text : str) : bool :=
  match text with
  | [] => startswith sub []
  | _ :: t => startswith sub text || contains sub t
  end.

(** [text.replace(old, new)] for a non-empty [old]: occurrences are found
    from the left and do not overlap.  [skip] counts the characters of a
    match that are still to be dropped. *)
Fixpoint replace_from (old new : str) (skip : nat) (text : str) : str :=
  match text with
  | [] => []
  | c :: t =>
      match skip with
      | S k => replace_from old new k t
      | O =>
          if startswith old text
          then new ++ replace_from old new (Nat.pred (length old)) t
          else c :: replace_from old new 0 t
      end
  end.

(** [text.replace(old, new)]; an empty [old] matches before every
    character and at the end. *)
Definition replace (old new text : str) : str :=
  match old with
  | [] => new ++ flat_map (fun c => c :: new) text
  | _ :: _ => replace_from old new 0 text
  end.

(** [sep.join(parts)] *)
Fixpoint join (sep : str) (parts : list str) : str :=
  match parts with
  | [] => []
  | [p] => p
  | p :: rest => p ++ sep ++ join sep rest
  end.

(** [text.rstrip(c)] for a one-character argument. *)
Fixpoint rstrip (c : char) (text : str) : str :=
  match text with
  | [] => []
  | x :: t =>
      match rstrip c t with
      | [] => if N.eqb x c then [] else [x]
      | r => x :: r
      end
  end.

(** [s * n] *)
Fixpoint repeat (s : str) (n : nat) : str :=
  match n with
  | O => []
  | S k => s ++ repeat s k
  end.

(** Truthiness of a string: non-empty. *)
Definition truthy (s : str) : bool :=
  match s with [] => false | _ :: _ => true end.

(** [str(n)] for a natural number, and [%0wd]. *)
Definition of_N (n : N) : str :=
  lit (NilZero.string_of_uint (N.to_uint n)).

Definition zfill (w : nat) (s : str) : str :=
  List.repeat 48%N (w - length s) ++ s.

Definition pad (w : nat) (n : N) : str := zfill w (of_N n).

End PyStr.

(** ** Exceptions *)

Inductive exn := ValueError | TypeError | OverflowError | OtherError.

Inductive result (A : Type) :=
| Ok (a : A)
| Raise (e : exn).
Arguments Ok {A} a.
Arguments Raise {A} e.

Definition bind {A B} (r : result A) (k : A -> result B) : result B :=
  match r with
  | Ok a => k a
  | Raise e => Raise e
  end.

(** [try: body  except Exception: handler] *)
Definition try_except {A} (body : result A) (handler : result A) : result A :=
  match body with
  | Ok a => Ok a
  | Raise _ => handler
  end.

Notation "x <- c ;; k" := (bind c (fun x => k))
  (at level 61, c at next level, right associativity).

(** ** Formatting a float with the [g] presentation type

    [format(x, ".pg")] on an IEEE binary64 value.  The value of a finite
    float is the dyadic rational [m * 2^e]; it is rounded to [p] significant
    decimal digits, ties to even, the digits are laid out in fixed or
    scientific notation and insignificant trailing zeros are dropped. *)

Module PyFloat.

Definition float := spec_float.

Definition INT_MAX : Z := 2147483647.

(** Numerator and denominator of the magnitude of a finite float. *)
Definition num (m : positive) (e : Z) : Z :=
  if (0 <=? e)%Z then Zpos m * 2 ^ e else Zpos m.
Definition den (e : Z) : Z :=
  if (0 <=? e)%Z then 1 else 2 ^ (- e).

Definition digits_of (z : Z) : str := PyStr.of_N (Z.to_N z).

(** [floor (log10 (n / d))] for positive [n], [d]. *)
Definition floor_log10 (n d : Z) : Z :=
  let a := Z.of_nat (length (digits_of n)) in
  let b := Z.of_nat (length (digits_of d)) in
  let x := (a - b)%Z in
  let ge :=
    if (0 <=? x)%Z then (d * 10 ^ x <=? n)%Z else (d <=? n * 10 ^ (- x))%Z in
  if ge then x else (x - 1)%Z.

(** [n / d] rounded to the nearest integer, ties to even. *)
Definition round_half_even (n d : Z) : Z :=
  let q := (n / d)%Z in
  let r := (n mod d)%Z in
  if (d <? 2 * r)%Z then (q + 1)%Z
  else if (2 * r =? d)%Z then (if Z.even q then q else (q + 1)%Z)
  else q.

(** The digit string and the position of the decimal point, as the
    conversion routine returns them: no trailing zeros. *)
Definition dtoa (p : Z) (m : positive) (e : Z) : str * Z :=
  let n := num m e in
  let d := den e in
  let x := floor_log10 n d in
  let k := (x + 1 - p)%Z in
  let q :=
    if (0 <=? k)%Z then round_half_even n (d * 10 ^ k)
    else round_half_even (n * 10 ^ (- k)) d in
  let ds := digits_of q in
  let decpt := (x + 1 + (Z.of_nat (length ds) - p))%Z in
  (PyStr.rstrip 48%N ds, decpt).

Definition exponent_text (x : Z) : str :=
  (if (x <? 0)%Z then lit "-" else lit "+")
    ++ PyStr.pad 2 (Z.to_N (Z.abs x)).

Definition layout (p : Z) (ds : str) (decpt : Z) : str :=
  if ((decpt <=? -4) || (p <? decpt))%Z then
    match ds with
    | [] => []
    | d0 :: [] => d0 :: lit "e" ++ exponent_text (decpt - 1)
    | d0 :: rest => d0 :: lit "." ++ rest ++ lit "e" ++ exponent_text (decpt - 1)
    end
  else if (decpt <=? 0)%Z then
    lit "0." ++ List.repeat 48%N (Z.to_nat (- decpt)) ++ ds
  else if (Z.of_nat (length ds) <=? decpt)%Z then
    ds ++ List.repeat 48%N (Z.to_nat decpt - length ds)
  else
    firstn (Z.to_nat decpt) ds ++ lit "." ++ skipn (Z.to_nat decpt) ds.

Definition sign_text (neg : bool) : str := if neg then lit "-" else [].

(** [format(x, f".{p}g")]; a negative precision is not a format
    specification and a precision above [INT_MAX] is refused. *)
Definition format_g (x : float) (p : Z) : result str :=
  if (p <? 0)%Z then Raise ValueError
  else if (INT_MAX <? p)%Z then Raise ValueError
  else
    let p := if (p =? 0)%Z then 1%Z else p in
    match x with
    | S754_nan => Ok (lit "nan")
    | S754_infinity neg => Ok (sign_text neg ++ lit "inf")
    | S754_zero neg => Ok (sign_text neg ++ lit "0")
    | S754_finite neg m e =>
        let '(ds, decpt) := dtoa p m e in
        Ok (sign_text neg ++ layout p ds decpt)
    end.

Definition is_nan (x : float) : bool :=
  match x with S754_nan => true | _ => false end.

(** A finite float is a binary64 value when its mantissa and exponent
    are in canonical form. *)
Definition is_binary64 (x : float) : bool :=
  match x with
  | S754_finite _ m e => bounded 53 1024 m e
  | _ => true
  end.

End PyFloat.

Definition f_3_14159 : PyFloat.float :=
  S754_finite false 7074231776675438 (-51).
Definition f_2_0 : PyFloat.float :=
  S754_finite false 4503599627370496 (-51).
Definition f_1_5e10 : PyFloat.float :=
  S754_finite false 7864320000000000 (-19).

(** ** Cell values

    The cells of the data frame are dynamically typed.  A value is
    modelled by the class [convert_value] dispatches on, together with
    what the code observes of it. *)

Record date := { year : N; month : N; day : N }.

(** [tzinfo.utcoffset(...)], in microseconds; [None] when the zone gives
    no offset. *)
Record tzinfo := { utcoffset : option Z }.

Record datetime := {
  dt_date : date;
  hour : N;
  minute : N;
  second : N;
  microsecond : N;
  dt_tzinfo : option tzinfo
}.

(** [pd.Timestamp] is a [datetime] with a nanosecond field on top of the
    microseconds. *)
Record Timestamp := {
  ts_datetime : datetime;
  nanosecond : N
}.

(** A [numbers.Number] other than [bool]: what [pd.isna], [float] and
    [str] return on it.  [float] raises on a complex number and on an
    integer too large for a float. *)
Record Number := {
  num_isna : bool;
  num_float : result PyFloat.float;
  num_str : str
}.

Definition py_float (x : PyFloat.float) (repr : str) : Number :=
  {| num_isna := PyFloat.is_nan x; num_float := Ok x; num_str := repr |}.

Definition py_int (z : Z) (as_float : result PyFloat.float) : Number :=
  {| num_isna := false;
     num_float := as_float;
     num_str := (if (z <? 0)%Z then lit "-" else []) ++ PyStr.of_N (Z.abs_N z) |}.

Inductive value :=
| VNone
| VNA
| VNaT
| VTimestamp (ts : Timestamp)
| VDatetime (d : datetime)
| VDate (d : date)
| VTimedelta (text : str)
| VNumber (n : Number)
| VBool (b : bool)
| VIsoformat (iso : result str) (text : str)
| VStr (s : str)
| VObject (text : str).

Definition pd_isna (v : value) : bool :=
  match v with
  | VNone | VNA | VNaT => true
  | VNumber n => num_isna n
  | _ => false
  end.

Definition date_isoformat (d : date) : str :=
  PyStr.pad 4 (year d) ++ lit "-" ++ PyStr.pad 2 (month d)
    ++ lit "-" ++ PyStr.pad 2 (day d).

Definition format_time (hh mm ss us : N) : str :=
  PyStr.pad 2 hh ++ lit ":" ++ PyStr.pad 2 mm ++ lit ":" ++ PyStr.pad 2 ss
    ++ (if N.eqb us 0 then [] else lit "." ++ PyStr.pad 6 us).

Definition format_offset (off : option Z) : str :=
  match off with
  | None => []
  | Some o =>
      let a := Z.to_N (Z.abs o) in
      let hh := (a / 3600000000)%N in
      let r := (a mod 3600000000)%N in
      let mm := (r / 60000000)%N in
      let ss := (r mod 60000000)%N in
      (if (o <? 0)%Z then lit "-" else lit "+")
        ++ PyStr.pad 2 hh ++ lit ":" ++ PyStr.pad 2 mm
        ++ (if N.eqb ss 0 then []
            else lit ":" ++ PyStr.pad 2 (ss / 1000000)
                   ++ (if N.eqb (ss mod 1000000) 0 then []
                       else lit "." ++ PyStr.pad 6 (ss mod 1000000)))
  end.

Definition tz_offset (tz : option tzinfo) : option Z :=
  match tz with
  | None => None
  | Some z => utcoffset z
  end.

(** The time part of [isoformat()], with the offset. *)
Definition time_isoformat (d : datetime) : str :=
  format_time (hour d) (minute d) (second d) (microsecond d)
    ++ format_offset (tz_offset (dt_tzinfo d)).

Definition datetime_isoformat (d : datetime) : str :=
  date_isoformat (dt_date d) ++ lit "T" ++ time_isoformat d.

(** [Timestamp.isoformat()]: the nanoseconds go after the microseconds and
    before the six characters of the offset. *)
Definition timestamp_isoformat (ts : Timestamp) : str :=
  let d := ts_datetime ts in
  let base := datetime_isoformat d in
  if N.eqb (nanosecond ts) 0 then base
  else
    let cut := length base - 6 in
    let '(base1, base2) :=
      match dt_tzinfo d with
      | Some _ => (firstn cut base, skipn cut base)
      | None => (base, [])
      end in
    (if N.eqb (microsecond d) 0
     then base1 ++ lit "." ++ PyStr.pad 9 (nanosecond ts)
     else base1 ++ PyStr.pad 3 (nanosecond ts)) ++ base2.

(** The test of [convert_value] on a naive value. *)
Definition at_midnight (d : datetime) : bool :=
  N.eqb (hour d) 0 && N.eqb (minute d) 0 && N.eqb (second d) 0
    && N.eqb (microsecond d) 0.

(** ** format_number *)

Definition strip_decimals (formatted : str) : str :=
  if PyStr.contains (lit ".") formatted then
    let r := PyStr.rstrip 46%N (PyStr.rstrip 48%N formatted) in
    if PyStr.truthy r then r else lit "0"
  else formatted.

Definition format_number (value : Number) (sig_figs : option Z) : result str :=
  match sig_figs with
  | None => Ok (num_str value)
  | Some p =>
      match (f <- num_float value ;; PyFloat.format_g f p) with
      | Raise _ => Ok (num_str value)
      | Ok formatted => Ok (strip_decimals formatted)
      end
  end.

(** ** The application state read by the serializer *)

Definition DEFAULT_SEPARATOR : str := lit ",".
Definition PREVIEW_ROW_LIMIT : nat := 20.
Definition CUSTOM : str := lit "Custom" ++ [ELLIPSIS].

Definition dict := list (str * Z).

Fixpoint dict_get (d : dict) (key : str) : option Z :=
  match d with
  | [] => None
  | (k, v) :: rest => if PyStr.eqb k key then Some v else dict_get rest key
  end.

Record DataFrame := {
  columns : list str;
  rows : list (list value)
}.

Record App := {
  separator_var : str;
  custom_separator_var : str;
  quoting_mode_var : str;
  quote_choice_var : str;
  custom_quote_var : str;
  significant_figures : dict;
  excel_path : option str;
  preview_text : str
}.

Definition get_separator (self : App) : option str :=
  let value := separator_var self in
  if PyStr.eqb value CUSTOM then
    let custom := custom_separator_var self in
    if PyStr.truthy custom then Some custom else None
  else if PyStr.eqb value [BACKSLASH; 116%N] then Some [TAB]
  else Some value.

Definition get_quote_char (self : App) : option str :=
  let value := quote_choice_var self in
  if PyStr.eqb value CUSTOM then
    let custom := custom_quote_var self in
    if PyStr.truthy custom then Some custom else None
  else Some value.

(** Truthiness of an [Optional[str]]. *)
Definition truthy_opt (o : option str) : bool :=
  match o with
  | None => false
  | Some s => PyStr.truthy s
  end.

(** [len] of a string that is there. *)
Definition opt_len (o : option str) : nat :=
  match o with
  | None => 0
  | Some s => length s
  end.

(** [x or default] on an [Optional[str]]. *)
Definition or_default (o : option str) (default : str) : str :=
  match o with
  | Some (c :: s) => c :: s
  | _ => default
  end.

Inductive dialog :=
| showerror (title message : str)
| showinfo (title message : str).

(** [validate_settings]: the verdict and the dialogs it opened. *)
Definition validate_settings (self : App) (show_dialog : bool)
  : bool * list dialog :=
  let separator := get_separator self in
  if negb (truthy_opt separator) then
    (false,
     if show_dialog
     then [showerror (lit "Invalid separator")
                     (lit "Please provide a non-empty separator.")]
     else [])
  else
    let quote_char := get_quote_char self in
    if negb (PyStr.eqb (quoting_mode_var self) (lit "none"))
       && negb (truthy_opt quote_char) then
      (false,
       if show_dialog
       then [showerror (lit "Invalid quote")
                       (lit "Please provide a quote character.")]
       else [])
    else if truthy_opt quote_char
            && negb (Nat.eqb (opt_len quote_char) 1) then
      (false,
       if show_dialog
       then [showerror (lit "Invalid quote")
                       (lit "Quote character must be a single character.")]
       else [])
    else (true, []).

(** [self.get_separator() or DEFAULT_SEPARATOR] and
    [configured_quote if configured_quote else DQUOTE], the first lines of
    [iter_csv_lines]. *)
Definition effective_separator (self : App) : str :=
  or_default (get_separator self) DEFAULT_SEPARATOR.

Definition effective_quote_char (self : App) : str :=
  or_default (get_quote_char self) [DQUOTE].

(** ** iter_csv_lines *)

Inductive event :=
| Yield (line : str)
| Progress (processed total : nat)
| Abort (e : exn).

Definition convert_value (sig : dict) (v : value) (column : str)
  : result (str * bool) :=
  if pd_isna v then Ok ([], false)
  else
    match v with
    | VTimestamp ts =>
        match dt_tzinfo (ts_datetime ts) with
        | Some _ => Ok (timestamp_isoformat ts, false)
        | None =>
            if at_midnight (ts_datetime ts)
            then Ok (date_isoformat (dt_date (ts_datetime ts)), false)
            else Ok (timestamp_isoformat ts, false)
        end
    | VDatetime d =>
        match dt_tzinfo d with
        | Some _ => Ok (datetime_isoformat d, false)
        | None =>
            if at_midnight d
            then Ok (date_isoformat (dt_date d), false)
            else Ok (datetime_isoformat d, false)
        end
    | VDate d => Ok (date_isoformat d, false)
    | VTimedelta text => Ok (text, false)
    | VNumber n =>
        s <- format_number n (dict_get sig column) ;; Ok (s, false)
    | VBool b => Ok (if b then lit "TRUE" else lit "FALSE", false)
    | VIsoformat iso text =>
        try_except (s <- iso ;; Ok (s, false)) (Ok (text, true))
    | VStr s => Ok (s, true)
    | VObject text => Ok (text, true)
    | VNone | VNA | VNaT => Ok ([], false)
    end.

(** [idx % 1000 == 0] *)
Definition every_1000th (idx : nat) : bool := Nat.eqb (idx mod 1000) 0.

Section Closure.

(** The variables the nested helpers close over. *)
Variable separator : str.
Variable quoting_mode : str.
Variable quote_char : str.

Definition needs_quote (text : str) (is_text : bool) : bool :=
  if PyStr.eqb quoting_mode (lit "all") then true
  else if PyStr.eqb quoting_mode (lit "text") && is_text then true
  else if PyStr.truthy separator && PyStr.contains separator text then true
  else if PyStr.contains [LF] text || PyStr.contains [CR] text then true
  else if PyStr.truthy quote_char && PyStr.contains quote_char text then true
  else false.

Definition escape_text (text : str) : str :=
  PyStr.replace quote_char (PyStr.repeat quote_char 2) text.

Definition format_cell (cell : str * bool) : str :=
  let '(text, is_text) := cell in
  if needs_quote text is_text
  then quote_char ++ escape_text text ++ quote_char
  else text.

Definition format_cells (cells : list (str * bool)) : str :=
  PyStr.join separator (map format_cell cells).

Variable sig : dict.
Variable cols : list str.

(** [[convert_value(value, column) for value, column in zip(row, columns)]] *)
Fixpoint convert_cells (pairs : list (value * str)) : result (list (str * bool)) :=
  match pairs with
  | [] => Ok []
  | (v, column) :: rest =>
      c <- convert_value sig v column ;;
      cs <- convert_cells rest ;;
      Ok (c :: cs)
  end.

Variable report : bool.
Variable total_rows : nat.

(** The [for idx, row in enumerate(row_iter, start=1)] loop, followed by
    what comes after it. *)
Fixpoint row_loop (idx : nat) (row_iter : list (list value))
         (after : list event) : list event :=
  match row_iter with
  | [] => after
  | row :: rest =>
      match convert_cells (combine row cols) with
      | Raise e => [Abort e]
      | Ok cells =>
          Yield (format_cells cells)
            :: (if report && every_1000th idx
                then [Progress idx total_rows] else [])
            ++ row_loop (S idx) rest after
      end
  end.

End Closure.

(** The cells of a row, for a conversion that does not raise. *)
Definition row_cells (sig : dict) (cols : list str) (row : list value)
  : list (str * bool) :=
  match convert_cells sig (combine row cols) with
  | Ok cells => cells
  | Raise _ => []
  end.

(** The line of a row and the header line. *)
Definition row_line (sep mode q : str) (sig : dict) (cols : list str)
           (row : list value) : str :=
  format_cells sep mode q (row_cells sig cols row).

Definition header_line (sep mode q : str) (cols : list str) : str :=
  format_cells sep mode q (map (fun col => (col, true)) cols).

(** [islice(row_iter, limit)] *)
Definition islice {A} (row_iter : list A) (limit : option nat) : list A :=
  match limit with
  | Some n => firstn n row_iter
  | None => row_iter
  end.

Definition is_none {A} (o : option A) : bool :=
  match o with None => true | Some _ => false end.

(** The generator, run to exhaustion: what it yields and the calls of the
    progress callback, in order.  [progress_callback] tells whether a
    callback was passed. *)
Definition iter_csv_lines (self : App) (df : DataFrame)
           (limit : option nat) (progress_callback : bool) : list event :=
  let separator := effective_separator self in
  let quoting_mode := quoting_mode_var self in
  let quote_char := effective_quote_char self in
  let total_rows := length (rows df) in
  let report := progress_callback && is_none limit in
  let header_cells := map (fun col => (col, true)) (columns df) in
  (if report then [Progress 0 total_rows] else [])
    ++ Yield (format_cells separator quoting_mode quote_char header_cells)
    :: row_loop separator quoting_mode quote_char
         (significant_figures self) (columns df) report total_rows
         1 (islice (rows df) limit)
         (if report then [Progress total_rows total_rows] else []).

Fixpoint yielded (evs : list event) : list str :=
  match evs with
  | [] => []
  | Yield line :: rest => line :: yielded rest
  | _ :: rest => yielded rest
  end.

Fixpoint progress_calls (evs : list event) : list (nat * nat) :=
  match evs with
  | [] => []
  | Progress p t :: rest => (p, t) :: progress_calls rest
  | _ :: rest => progress_calls rest
  end.

Definition aborted (evs : list event) : bool :=
  existsb (fun ev => match ev with Abort _ => true | _ => false end) evs.

(** ** The callers: preview and save *)

(** [display_preview]: the text put in the preview widget. *)
Definition display_preview (self : App) (df : DataFrame) : App :=
  let csv_lines := yielded (iter_csv_lines self df (Some PREVIEW_ROW_LIMIT) false) in
  {| separator_var := separator_var self;
     custom_separator_var := custom_separator_var self;
     quoting_mode_var := quoting_mode_var self;
     quote_choice_var := quote_choice_var self;
     custom_quote_var := custom_quote_var self;
     significant_figures := significant_figures self;
     excel_path := excel_path self;
     preview_text := PyStr.join [LF] csv_lines |}.

(** [update_column_list] drops the precision entries of columns that no
    longer exist. *)
Definition update_column_list (self : App) (cols : list str) : App :=
  {| separator_var := separator_var self;
     custom_separator_var := custom_separator_var self;
     quoting_mode_var := quoting_mode_var self;
     quote_choice_var := quote_choice_var self;
     custom_quote_var := custom_quote_var self;
     significant_figures :=
       filter (fun kv => existsb (PyStr.eqb (fst kv)) cols)
              (significant_figures self);
     excel_path := excel_path self;
     preview_text := preview_text self |}.

(** What [pd.read_excel] gives: the frame, or the text of the exception it
    raises. *)
Inductive read_result :=
| ReadOk (df : DataFrame)
| ReadFailed (message : str).

(** The text of the [AttributeError] of [columns.index(selected_value)]:
    the columns of a frame are a pandas [Index], which has no method
    [index]. *)
Definition INDEX_ERROR : str := lit "'Index' object has no attribute 'index'".

(** The dialog of the [except] clause of [refresh_preview]. *)
Definition preview_error (message : str) : dialog :=
  showerror (lit "Preview error") (lit "Unable to generate preview: " ++ message).

(** Whether [update_column_list] reaches [columns.index]: a column is
    selected in the list box and [selected_value in columns] holds.
    [selection] is the column selected when the function is entered. *)
Definition selection_raises (selection : option str) (cols : list str) : bool :=
  match selection with
  | Some selected_value => existsb (PyStr.eqb selected_value) cols
  | None => false
  end.

(** [refresh_preview], given the column selected in the list box and what
    [pd.read_excel] gives: the new state and the dialogs opened.  The
    precision entries are pruned before [columns.index] raises, so they stay
    pruned when the preview fails. *)
Definition refresh_preview (self : App) (selection : option str)
           (read : read_result) : App * list dialog :=
  match excel_path self with
  | None => (self, [])
  | Some _ =>
      if negb (fst (validate_settings self false)) then (self, [])
      else
        match read with
        | ReadFailed message => (self, [preview_error message])
        | ReadOk df =>
            let pruned := update_column_list self (columns df) in
            if selection_raises selection (columns df)
            then (pruned, [preview_error INDEX_ERROR])
            else (display_preview pruned df, [])
        end
  end.

(** What a conversion leaves: the texts written to the file, in order
    ([None] when the file was not opened), the progress reports made, and
    whether it ended in [on_conversion_success]. *)
Record conversion := {
  written : option (list str);
  reported : list (nat * nat);
  succeeded : bool
}.

Section Sink.

(** Whether the chosen codec can encode a text; [fh.write(text)] raises
    [UnicodeEncodeError] when it cannot, and nothing of that text is
    written. *)
Variable encodable : str -> bool.

(** The loop of [perform_conversion] over what the generator does, up to
    the first write that raises. *)
Fixpoint write_lines (newline : str) (evs : list event)
  : list str * list (nat * nat) * bool :=
  match evs with
  | [] => ([], [], true)
  | Yield line :: rest =>
      if encodable line then
        if encodable newline then
          let '(w, p, ok) := write_lines newline rest in
          (line :: newline :: w, p, ok)
        else ([line], [], false)
      else ([], [], false)
  | Progress processed total :: rest =>
      let '(w, p, ok) := write_lines newline rest in
      (w, (processed, total) :: p, ok)
  | Abort _ :: _ => ([], [], false)
  end.

(** [perform_conversion], given what [pd.read_excel] gives, whether the
    output file could be opened, and the line terminator chosen. *)
Definition perform_conversion (self : App) (read : read_result)
           (opened : bool) (newline : str) : conversion :=
  match read with
  | ReadFailed _ => {| written := None; reported := []; succeeded := false |}
  | ReadOk df =>
      if opened then
        let '(w, p, ok) :=
          write_lines newline (iter_csv_lines self df None true) in
        {| written := Some w; reported := p; succeeded := ok |}
      else {| written := None; reported := []; succeeded := false |}
  end.

End Sink.

Inductive save_result :=
| NotStarted (dialogs : list dialog)
| Cancelled
| Started (output_path : str).

(** [save_csv], given the answer of the file dialog: the dialogs that stop
    it, or the path the conversion thread is started with. *)
Definition save_csv (self : App) (filename : str) : save_result :=
  match excel_path self with
  | None =>
      NotStarted [showinfo (lit "Select file")
                           (lit "Please choose an Excel file first.")]
  | Some _ =>
      let '(ok, dialogs) := validate_settings self true in
      if negb ok then NotStarted dialogs
      else if negb (PyStr.truthy filename) then Cancelled
      else Started filename
  end.

(** The longest prefix of texts that can all be encoded. *)
Fixpoint take_while {A : Type} (f : A -> bool) (l : list A) : list A :=
  match l with
  | [] => []
  | x :: rest => if f x then x :: take_while f rest else []
  end.

(** ** Sample states

    The state a fresh installation starts from (the defaults of
    [AppConfig]) with a workbook selected, and two states with the custom
    entries left empty. *)

Definition default_app : App :=
  {| separator_var := lit ",";
     custom_separator_var := [];
     quoting_mode_var := lit "text";
     quote_choice_var := [DQUOTE];
     custom_quote_var := [];
     significant_figures := [];
     excel_path := Some (lit "book.xlsx");
     preview_text := [] |}.

Definition no_quote_app : App :=
  {| separator_var := lit ",";
     custom_separator_var := [];
     quoting_mode_var := lit "none";
     quote_choice_var := CUSTOM;
     custom_quote_var := [];
     significant_figures := [];
     excel_path := Some (lit "book.xlsx");
     preview_text := [] |}.

Definition no_separator_app : App :=
  {| separator_var := CUSTOM;
     custom_separator_var := [];
     quoting_mode_var := lit "none";
     quote_choice_var := [DQUOTE];
     custom_quote_var := [];
     significant_figures := [];
     excel_path := Some (lit "book.xlsx");
     preview_text := [] |}.

(** A frame with two text columns and one row. *)
Definition df_ab : DataFrame :=
  {| columns := [lit "a"; lit "b"];
     rows := [[VStr (lit "x"); VStr (lit "y")]] |}.

(** A frame with an integer and a text that holds the separator. *)
Definition df_hello : DataFrame :=
  {| columns := [lit "n"; lit "greeting"];
     rows := [[VNumber (py_int 42 (Ok (S754_finite false 5910974510923776 (-47))));
               VStr (lit "hello, world")]] |}.

Definition jan_15 : date := {| year := 2024; month := 1; day := 15 |}.

(** [datetime(2024, 1, 15, 0, 0)] and [datetime(2024, 1, 15, 8, 30)] *)
Definition dt_midnight : datetime :=
  {| dt_date := jan_15; hour := 0; minute := 0; second := 0;
     microsecond := 0; dt_tzinfo := None |}.

Definition dt_morning : datetime :=
  {| dt_date := jan_15; hour := 8; minute := 30; second := 0;
     microsecond := 0; dt_tzinfo := None |}.

(** [pd.Timestamp("2024-01-15 00:00:00.000000500")]: 500 ns after
    midnight. *)
Definition ts_500ns : Timestamp :=
  {| ts_datetime := dt_midnight; nanosecond := 500 |}.

(** [15000000000.0], [3.14159] and [2.0] as cell values. *)
Definition n_1_5e10 : Number := py_float f_1_5e10 (lit "15000000000.0").
Definition n_3_14159 : Number := py_float f_3_14159 (lit "3.14159").
Definition n_2_0 : Number := py_float f_2_0 (lit "2.0").

(** [1 + 2j]: [float] raises [TypeError]. *)
Definition n_complex : Number :=
  {| num_isna := false; num_float := Raise TypeError; num_str := lit "(1+2j)" |}.

(** ** Vocabulary of the specification *)

(** [sub] occurs in [text]. *)
Definition occurs (sub text : str) : Prop :=
  exists pre post, text = pre ++ sub ++ post.

Definition has_line_break (text : str) : Prop :=
  occurs [LF] text \/ occurs [CR] text.

(** Structural necessity: the field holds the separator, a line break or
    the quote character. *)
Definition structurally_required (sep q text : str) : Prop :=
  occurs sep text \/ has_line_break text \/ occurs q text.

(** Every occurrence of the quote character doubled. *)
Definition doubled (q : char) (text : str) : str :=
  flat_map (fun c => if N.eqb c q then [q; q] else [c]) text.

(** Reading a quoted field back: the outer quotes are stripped and the
    doubling is reversed. *)
Definition strip_outer (field : str) : str := removelast (tl field).

Definition unescape (q : char) (field : str) : str :=
  PyStr.replace [q; q] [q] (strip_outer field).

(** ** The precision entries

    [apply_sig_fig], [clear_sig_fig] and what they do to the dictionary of
    significant figures. *)

(** [d[key] = v] *)
Fixpoint dict_set (d : dict) (key : str) (v : Z) : dict :=
  match d with
  | [] => [(key, v)]
  | (k, x) :: rest =>
      if PyStr.eqb k key then (k, v) :: rest
      else (k, x) :: dict_set rest key v
  end.

(** [del d[key]] *)
Definition dict_del (d : dict) (key : str) : dict :=
  filter (fun kv => negb (PyStr.eqb (fst kv) key)) d.

(** [key in d] *)
Definition dict_mem (d : dict) (key : str) : bool :=
  match dict_get d key with
  | Some _ => true
  | None => false
  end.

(** The state with its precision entries replaced. *)
Definition with_significant_figures (self : App) (d : dict) : App :=
  {| separator_var := separator_var self;
     custom_separator_var := custom_separator_var self;
     quoting_mode_var := quoting_mode_var self;
     quote_choice_var := quote_choice_var self;
     custom_quote_var := custom_quote_var self;
     significant_figures := d;
     excel_path := excel_path self;
     preview_text := preview_text self |}.

(** The state with another quoting mode. *)
Definition with_quoting_mode (self : App) (mode : str) : App :=
  {| separator_var := separator_var self;
     custom_separator_var := custom_separator_var self;
     quoting_mode_var := mode;
     quote_choice_var := quote_choice_var self;
     custom_quote_var := custom_quote_var self;
     significant_figures := significant_figures self;
     excel_path := excel_path self;
     preview_text := preview_text self |}.

Section SigFigEntry.

(** [str.strip] and [int] on the text of the entry; [int] gives [None]
    when it raises [ValueError]. *)
Variable strip : str -> str.
Variable int : str -> option Z.

(** [apply_sig_fig], given the selected column, the text of the entry and
    what the preview reads: the new state and the dialogs opened. *)
Definition apply_sig_fig (self : App) (selection : option str)
           (sig_fig_var : str) (read : read_result) : App * list dialog :=
  match selection with
  | None =>
      (self, [showinfo (lit "Select column")
                       (lit "Please choose a column to update.")])
  | Some column =>
      let value := strip sig_fig_var in
      if negb (PyStr.truthy value) then
        (self,
         [showinfo (lit "Missing value")
            (lit "Enter a positive integer for significant figures or use Clear.")])
      else
        match int value with
        | None =>
            (self,
             [showerror (lit "Invalid value")
                (lit "Significant figures must be a positive integer.")])
        | Some sig_figs =>
            if (sig_figs <=? 0)%Z then
              (self,
               [showerror (lit "Invalid value")
                  (lit "Significant figures must be a positive integer.")])
            else
              refresh_preview
                (with_significant_figures self
                   (dict_set (significant_figures self) column sig_figs))
                selection read
        end
  end.

End SigFigEntry.

(** [clear_sig_fig] *)
Definition clear_sig_fig (self : App) (selection : option str)
           (read : read_result) : App * list dialog :=
  match selection with
  | None =>
      (self, [showinfo (lit "Select column")
                       (lit "Please choose a column to clear.")])
  | Some column =>
      let d :=
        if dict_mem (significant_figures self) column
        then dict_del (significant_figures self) column
        else significant_figures self in
      refresh_preview (with_significant_figures self d) selection read
  end.

(** Every stored precision is a positive integer. *)
Definition all_positive (d : dict) : Prop :=
  Forall (fun kv => (0 < snd kv)%Z) d.

(** ** Output options *)

Definition SUPPORTED_ENCODINGS : list (str * str) :=
  [(lit "UTF-8", lit "utf-8");
   (lit "UTF-8 with BOM", lit "utf-8-sig");
   (lit "ISO-8859-1", lit "iso-8859-1");
   (lit "Windows-1252", lit "cp1252")].

Definition LINE_ENDING_OPTIONS : list (str * option str) :=
  [(lit "Auto (OS default)", None);
   (lit "Unix (\n)", Some [LF]);
   (lit "Windows (\r\n)", Some [CR; LF])].

(** [d.get(key)] on a dictionary with string keys. *)
Fixpoint lookup {V : Type} (d : list (str * V)) (key : str) : option V :=
  match d with
  | [] => None
  | (k, v) :: rest => if PyStr.eqb k key then Some v else lookup rest key
  end.

(** [x in options] for a list of strings. *)
Definition mem (x : str) (options : list str) : bool :=
  existsb (PyStr.eqb x) options.

(** [SUPPORTED_ENCODINGS.get(encoding_label, "utf-8")] *)
Definition output_encoding (encoding_label : str) : str :=
  match lookup SUPPORTED_ENCODINGS encoding_label with
  | Some codec => codec
  | None => lit "utf-8"
  end.

(** The two lines of [perform_conversion] that choose the line
    terminator; [linesep] is [os.linesep]. *)
Definition output_newline (line_ending_label : str) (linesep : str) : str :=
  match lookup LINE_ENDING_OPTIONS line_ending_label with
  | Some (Some line_ending_choice) => line_ending_choice
  | _ => linesep
  end.

(** ** The persisted configuration *)

(** [AppConfig] with the types the dataclass declares.  [load_config]
    does not check that the values of a file have these types; a
    configuration here is one whose fields do, as every configuration built
    by [on_close] is. *)
Record AppConfig := {
  last_file : str;
  separator_choice : str;
  custom_separator : str;
  quoting_mode : str;
  quote_choice : str;
  custom_quote : str;
  encoding : str;
  line_ending : str;
  sheet_name : str;
  cfg_significant_figures : dict
}.

(** The Tk variables and attributes of the window. *)
Record Window := {
  win_app : App;
  encoding_var : str;
  line_ending_var : str;
  sheet_var : str
}.

Definition separator_options : list str :=
  [lit ","; lit ";"; [BACKSLASH; 116%N]; lit "|"; lit ":"; CUSTOM].

Definition quote_options : list str :=
  [[DQUOTE]; lit "'"; lit "`"; CUSTOM].

Definition or_else (cond : bool) (x default : str) : str :=
  if cond then x else default.

(** The variables as [__init__] and [create_widgets] set them from the
    loaded configuration, before any workbook is read. *)
Definition create_widgets (config : AppConfig) : Window :=
  {| win_app :=
       {| separator_var :=
            or_else (mem (separator_choice config) separator_options)
                    (separator_choice config) (lit ",");
          custom_separator_var := custom_separator config;
          quoting_mode_var := quoting_mode config;
          quote_choice_var :=
            or_else (mem (quote_choice config) quote_options)
                    (quote_choice config) [DQUOTE];
          custom_quote_var := custom_quote config;
          significant_figures := cfg_significant_figures config;
          excel_path :=
            if PyStr.truthy (last_file config)
            then Some (last_file config) else None;
          preview_text := [] |};
     encoding_var :=
       or_else (mem (encoding config) (map fst SUPPORTED_ENCODINGS))
               (encoding config) (lit "UTF-8");
     line_ending_var :=
       or_else (mem (line_ending config) (map fst LINE_ENDING_OPTIONS))
               (line_ending config) (lit "Auto (OS default)");
     sheet_var := [] |}.

(** [on_close]: the configuration handed to [save_config]. *)
Definition on_close (w : Window) : AppConfig :=
  {| last_file :=
       match excel_path (win_app w) with
       | Some path => path
       | None => []
       end;
     separator_choice := separator_var (win_app w);
     custom_separator := custom_separator_var (win_app w);
     quoting_mode := quoting_mode_var (win_app w);
     quote_choice := quote_choice_var (win_app w);
     custom_quote := custom_quote_var (win_app w);
     encoding := encoding_var w;
     line_ending := line_ending_var w;
     sheet_name := sheet_var w;
     cfg_significant_figures := significant_figures (win_app w) |}.

(** The window of a fresh installation, with a workbook selected. *)
Definition default_window : Window :=
  {| win_app := default_app;
     encoding_var := lit "UTF-8";
     line_ending_var := lit "Auto (OS default)";
     sheet_var := lit "Sheet1" |}.

(** ** Reading a line back

    A reader of one record, as a consumer of the file would run it: fields
    are split at the separator, a field that starts with the quote character
    runs to its closing quote, and a doubled quote inside it stands for one
    quote.  [cur] is the field read so far. *)

Inductive reader_state := FieldStart | Unquoted | Quoted | QuoteSeen.

Fixpoint read_fields (s qc : char) (st : reader_state) (cur : str)
         (line : str) : list str :=
  match line with
  | [] => [cur]
  | c :: rest =>
      match st with
      | FieldStart =>
          if N.eqb c qc then read_fields s qc Quoted [] rest
          else if N.eqb c s then [] :: read_fields s qc FieldStart [] rest
          else read_fields s qc Unquoted [c] rest
      | Unquoted =>
          if N.eqb c s then cur :: read_fields s qc FieldStart [] rest
          else read_fields s qc Unquoted (cur ++ [c]) rest
      | Quoted =>
          if N.eqb c qc then read_fields s qc QuoteSeen cur rest
          else read_fields s qc Quoted (cur ++ [c]) rest
      | QuoteSeen =>
          if N.eqb c qc then read_fields s qc Quoted (cur ++ [qc]) rest
          else if N.eqb c s then cur :: read_fields s qc FieldStart [] rest
          else read_fields s qc Unquoted (cur ++ [c]) rest
      end
  end.

Definition read_line (s qc : char) (line : str) : list str :=
  read_fields s qc FieldStart [] line.

(** What may follow a field in a line: nothing, or the separator and the
    rest of the line. *)
Definition tail_ok (s : char) (tail : str) : Prop :=
  tail = [] \/ exists more, tail = s :: more.

(** The fields read when a field is complete. *)
Definition after_field (s qc : char) (field : str) (tail : str) : list str :=
  match tail with
  | [] => [field]
  | _ :: more => field :: read_line s qc more
  end.

(** * Properties *)

(** ** String built-ins *)

Lemma eqb_eq (a b : str) : PyStr.eqb a b = true <-> a = b.
Proof.
  revert b; induction a as [|x a IH]; intros [|y b]; simpl;
    try (split; [discriminate | congruence]); try tauto.
  rewrite andb_true_iff, N.eqb_eq, IH.
  split; [intros [-> ->]; reflexivity | intros H; inversion H; auto].
Qed.

Lemma startswith_spec (p text : str) :
  PyStr.startswith p text = true <-> exists post, text = p ++ post.
Proof.
  revert text; induction p as [|x p IH]; intros text; simpl.
  - split; [intros _; now exists text | reflexivity].
  - destruct text as [|y t].
    + split; [discriminate | intros [post H]; discriminate].
    + rewrite andb_true_iff, N.eqb_eq, IH. split.
      * intros [-> [post ->]]. now exists post.
      * intros [post H]. inversion H; subst. split; [reflexivity | now exists post].
Qed.

Lemma contains_spec (sub text : str) :
  PyStr.contains sub text = true <-> occurs sub text.
Proof.
  unfold occurs. induction text as [|c t IH]; simpl.
  - rewrite startswith_spec. split.
    + intros [post H]. exists [], post. exact H.
    + intros [pre [post H]]. destruct pre; [|discriminate].
      now exists post.
  - rewrite orb_true_iff, IH.
    change (match sub with
            | [] => true
            | x :: p' => (x =? c)%N && PyStr.startswith p' t
            end) with (PyStr.startswith sub (c :: t)).
    rewrite startswith_spec. split.
    + intros [[post H] | [pre [post H]]].
      * exists [], post. exact H.
      * exists (c :: pre), post. simpl. now rewrite H.
    + intros [pre [post H]]. destruct pre as [|x pre].
      * left. now exists post.
      * right. inversion H; subst. now exists pre, post.
Qed.

Lemma contains_false (sub text : str) :
  PyStr.contains sub text = false <-> ~ occurs sub text.
Proof.
  rewrite <- contains_spec. destruct (PyStr.contains sub text); split;
    congruence.
Qed.

Lemma occurs_char (c : char) (text : str) : occurs [c] text <-> In c text.
Proof.
  split.
  - intros [pre [post ->]]. apply in_or_app. right. now left.
  - intros H. apply in_split in H. destruct H as [pre [post ->]].
    now exists pre, post.
Qed.

(** ** The effective separator and quote character are never empty *)

Lemma or_default_truthy (o : option str) (d : str) :
  PyStr.truthy d = true -> PyStr.truthy (or_default o d) = true.
Proof. destruct o as [[|c s]|]; simpl; auto. Qed.

Lemma effective_separator_truthy (self : App) :
  PyStr.truthy (effective_separator self) = true.
Proof. apply or_default_truthy. reflexivity. Qed.

Lemma effective_quote_char_truthy (self : App) :
  PyStr.truthy (effective_quote_char self) = true.
Proof. apply or_default_truthy. reflexivity. Qed.

(** ** The quoting decision *)

Lemma needs_quote_structural (sep mode q text : str) (is_text : bool) :
  PyStr.truthy sep = true -> PyStr.truthy q = true ->
  PyStr.eqb mode (lit "all") = false ->
  (needs_quote sep mode q text is_text = true <->
   (PyStr.eqb mode (lit "text") = true /\ is_text = true)
   \/ structurally_required sep q text).
Proof.
  intros Hsep Hq Hall. unfold needs_quote, structurally_required, has_line_break.
  rewrite Hall, Hsep, Hq. simpl.
  rewrite <- !contains_spec.
  destruct (PyStr.eqb mode (lit "text")), is_text,
    (PyStr.contains sep text), (PyStr.contains [LF] text),
    (PyStr.contains [CR] text), (PyStr.contains q text); simpl;
    intuition congruence.
Qed.

(** C1: mode "all" always quotes; mode "text" quotes exactly the text-like
    fields and those that hold the separator, a line break or the quote
    character; mode "none" quotes exactly the latter. *)
Theorem needs_quote_decision (self : App) (text : str) (is_text : bool) :
  let sep := effective_separator self in
  let q := effective_quote_char self in
  needs_quote sep (lit "all") q text is_text = true
  /\ (needs_quote sep (lit "text") q text is_text = true <->
      is_text = true \/ structurally_required sep q text)
  /\ (needs_quote sep (lit "none") q text is_text = true <->
      structurally_required sep q text).
Proof.
  intros sep q.
  pose proof (effective_separator_truthy self) as Hsep.
  pose proof (effective_quote_char_truthy self) as Hq.
  split; [reflexivity | split].
  - rewrite needs_quote_structural by (assumption || reflexivity).
    change (PyStr.eqb (lit "text") (lit "text")) with true. tauto.
  - rewrite needs_quote_structural by (assumption || reflexivity).
    change (PyStr.eqb (lit "none") (lit "text")) with false.
    split; [intros [[H _]|H]; [discriminate | exact H] | auto].
Qed.

(** ** Escaping and reading back *)

Lemma escape_text_single (qc : char) (text : str) :
  escape_text [qc] text = doubled qc text.
Proof.
  unfold escape_text. simpl.
  induction text as [|c t IH]; simpl; [reflexivity|].
  rewrite N.eqb_sym. destruct (N.eqb c qc); simpl; now rewrite IH.
Qed.

Lemma undouble_doubled (qc : char) (text : str) :
  PyStr.replace [qc; qc] [qc] (doubled qc text) = text.
Proof.
  simpl. induction text as [|c t IH]; simpl; [reflexivity|].
  destruct (N.eqb c qc) eqn:E; simpl.
  - apply N.eqb_eq in E. subst c. rewrite N.eqb_refl. simpl.
    now rewrite IH.
  - rewrite N.eqb_sym, E. simpl. now rewrite IH.
Qed.

Lemma unescape_quoted (qc : char) (text : str) :
  unescape qc (qc :: doubled qc text ++ [qc]) = text.
Proof.
  unfold unescape, strip_outer. simpl tl.
  rewrite removelast_last. apply undouble_doubled.
Qed.

(** A validated configuration has a one-character quote. *)
Lemma valid_quote_single (self : App) (show_dialog : bool) :
  fst (validate_settings self show_dialog) = true ->
  exists qc, effective_quote_char self = [qc].
Proof.
  unfold validate_settings, effective_quote_char.
  destruct (negb (truthy_opt (get_separator self))); [discriminate|].
  destruct (get_quote_char self) as [[|c [|c' s]]|]; simpl;
    try (now exists DQUOTE); try (now exists c).
  destruct (negb (PyStr.eqb (quoting_mode_var self) (lit "none")));
    discriminate.
Qed.

Lemma structural_needs_quote (sep mode q text : str) (is_text : bool) :
  PyStr.truthy sep = true -> PyStr.truthy q = true ->
  structurally_required sep q text ->
  needs_quote sep mode q text is_text = true.
Proof.
  intros Hsep Hq H.
  destruct (PyStr.eqb mode (lit "all")) eqn:E.
  - unfold needs_quote. now rewrite E.
  - apply needs_quote_structural; auto.
Qed.

(** C2: under a validated configuration, a field that holds the
    separator, a line break or the quote character is quoted; a quoted field
    is the text with every quote character doubled, between two quote
    characters, and reading it back gives the text; an unquoted field is the
    text itself. *)
Theorem quoted_field_round_trip (self : App) :
  fst (validate_settings self false) = true ->
  let sep := effective_separator self in
  let mode := quoting_mode_var self in
  let q := effective_quote_char self in
  exists qc, q = [qc] /\
    forall (text : str) (is_text : bool),
      (structurally_required sep q text ->
       needs_quote sep mode q text is_text = true)
      /\ (needs_quote sep mode q text is_text = true ->
          format_cell sep mode q (text, is_text) = qc :: doubled qc text ++ [qc]
          /\ unescape qc (format_cell sep mode q (text, is_text)) = text)
      /\ (needs_quote sep mode q text is_text = false ->
          format_cell sep mode q (text, is_text) = text).
Proof.
  intros Hvalid sep mode q.
  destruct (valid_quote_single self false Hvalid) as [qc Hqc].
  exists qc. split; [exact Hqc|].
  intros text is_text. split; [|split].
  - apply structural_needs_quote.
    + apply effective_separator_truthy.
    + apply effective_quote_char_truthy.
  - intros Hn. unfold format_cell. rewrite Hn. subst q. rewrite Hqc.
    rewrite escape_text_single. simpl. split; [reflexivity|].
    apply unescape_quoted.
  - intros Hn. unfold format_cell. now rewrite Hn.
Qed.

Lemma quoted_field_round_trip_default :
  exists qc, effective_quote_char default_app = [qc] /\
    forall (text : str) (is_text : bool),
      (structurally_required (effective_separator default_app)
         (effective_quote_char default_app) text ->
       needs_quote (effective_separator default_app)
         (quoting_mode_var default_app)
         (effective_quote_char default_app) text is_text = true)
      /\ (needs_quote (effective_separator default_app)
            (quoting_mode_var default_app)
            (effective_quote_char default_app) text is_text = true ->
          format_cell (effective_separator default_app)
            (quoting_mode_var default_app)
            (effective_quote_char default_app) (text, is_text)
          = qc :: doubled qc text ++ [qc]
          /\ unescape qc
               (format_cell (effective_separator default_app)
                  (quoting_mode_var default_app)
                  (effective_quote_char default_app) (text, is_text)) = text)
      /\ (needs_quote (effective_separator default_app)
            (quoting_mode_var default_app)
            (effective_quote_char default_app) text is_text = false ->
          format_cell (effective_separator default_app)
            (quoting_mode_var default_app)
            (effective_quote_char default_app) (text, is_text) = text).
Proof. exact (quoted_field_round_trip default_app eq_refl). Defined.

(** ** Missing values *)

Lemma occurs_in_empty (sub : str) :
  PyStr.truthy sub = true -> ~ occurs sub [].
Proof.
  intros Hs [pre [post H]]. destruct pre; destruct sub; simpl in *;
    discriminate.
Qed.

Lemma empty_not_structural (sep q : str) :
  PyStr.truthy sep = true -> PyStr.truthy q = true ->
  ~ structurally_required sep q [].
Proof.
  intros Hsep Hq [H | [[H | H] | H]];
    revert H; apply occurs_in_empty; auto.
Qed.

(** C7: a missing value is formatted as the empty string, not text-like,
    and in mode "text" that field is emitted without quotes. *)
Theorem missing_value_empty_unquoted
        (self : App) (v : value) (column : str) :
  pd_isna v = true ->
  convert_value (significant_figures self) v column = Ok ([], false)
  /\ needs_quote (effective_separator self) (lit "text")
       (effective_quote_char self) [] false = false
  /\ format_cell (effective_separator self) (lit "text")
       (effective_quote_char self) ([], false) = [].
Proof.
  intros Hna.
  assert (Hq : needs_quote (effective_separator self) (lit "text")
                 (effective_quote_char self) [] false = false).
  { apply not_true_iff_false. intros H.
    apply needs_quote_structural in H;
      try apply effective_separator_truthy;
      try apply effective_quote_char_truthy; try reflexivity.
    destruct H as [[_ H] | H]; [discriminate|].
    revert H. apply empty_not_structural.
    - apply effective_separator_truthy.
    - apply effective_quote_char_truthy. }
  split; [|split].
  - unfold convert_value. now rewrite Hna.
  - exact Hq.
  - unfold format_cell. now rewrite Hq.
Qed.

Lemma missing_value_empty_unquoted_none :
  convert_value (significant_figures default_app) VNone (lit "price")
    = Ok ([], false)
  /\ needs_quote (effective_separator default_app) (lit "text")
       (effective_quote_char default_app) [] false = false
  /\ format_cell (effective_separator default_app) (lit "text")
       (effective_quote_char default_app) ([], false) = [].
Proof.
  exact (missing_value_empty_unquoted default_app VNone (lit "price") eq_refl).
Defined.

(** ** The quote character when none is configured *)

(** C10: when no quote character is configured the serializer works with
    the double quote: a field that holds the separator, a line break or a
    double quote is emitted between double quotes, with its double quotes
    doubled, and can be read back. *)
Theorem unset_quote_defaults_to_double_quote (self : App) :
  truthy_opt (get_quote_char self) = false ->
  effective_quote_char self = [DQUOTE]
  /\ forall (text : str) (is_text : bool),
       structurally_required (effective_separator self) [DQUOTE] text ->
       format_cell (effective_separator self) (quoting_mode_var self)
         (effective_quote_char self) (text, is_text)
       = DQUOTE :: doubled DQUOTE text ++ [DQUOTE]
       /\ unescape DQUOTE
            (format_cell (effective_separator self) (quoting_mode_var self)
               (effective_quote_char self) (text, is_text)) = text.
Proof.
  intros Hunset.
  assert (Hq : effective_quote_char self = [DQUOTE]).
  { unfold effective_quote_char.
    destruct (get_quote_char self) as [[|c s]|]; simpl in *;
      congruence. }
  split; [exact Hq|].
  intros text is_text Hs. rewrite Hq.
  assert (Hn : needs_quote (effective_separator self) (quoting_mode_var self)
                 [DQUOTE] text is_text = true).
  { apply structural_needs_quote; auto using effective_separator_truthy. }
  unfold format_cell. rewrite Hn, escape_text_single. simpl.
  split; [reflexivity | apply unescape_quoted].
Qed.

Lemma unset_quote_defaults_to_double_quote_custom_empty :
  effective_quote_char no_quote_app = [DQUOTE]
  /\ forall (text : str) (is_text : bool),
       structurally_required (effective_separator no_quote_app) [DQUOTE] text ->
       format_cell (effective_separator no_quote_app)
         (quoting_mode_var no_quote_app)
         (effective_quote_char no_quote_app) (text, is_text)
       = DQUOTE :: doubled DQUOTE text ++ [DQUOTE]
       /\ unescape DQUOTE
            (format_cell (effective_separator no_quote_app)
               (quoting_mode_var no_quote_app)
               (effective_quote_char no_quote_app) (text, is_text)) = text.
Proof. exact (unset_quote_defaults_to_double_quote no_quote_app eq_refl). Defined.

(** Such a state passes validation in mode "none". *)
Lemma no_quote_app_valid :
  get_quote_char no_quote_app = None
  /\ validate_settings no_quote_app true = (true, []).
Proof. split; reflexivity. Qed.

(** ** Formatting never raises *)

Lemma format_number_ok (n : Number) (sig_figs : option Z) :
  exists s, format_number n sig_figs = Ok s.
Proof.
  unfold format_number. destruct sig_figs as [p|]; [|now eexists].
  destruct (f <- num_float n ;; PyFloat.format_g f p); now eexists.
Qed.

Lemma convert_value_ok (sig : dict) (v : value) (column : str) :
  exists cell, convert_value sig v column = Ok cell.
Proof.
  unfold convert_value. destruct (pd_isna v); [now eexists|].
  destruct v as [| | |ts|d|d|t|n|b|iso t|s|t]; try (now eexists).
  - destruct (dt_tzinfo (ts_datetime ts)); [now eexists|].
    destruct (at_midnight (ts_datetime ts)); now eexists.
  - destruct (dt_tzinfo d); [now eexists|].
    destruct (at_midnight d); now eexists.
  - destruct (format_number_ok n (dict_get sig column)) as [s ->].
    now eexists.
  - destruct iso; now eexists.
Qed.

(** ** The trace of the generator *)

Lemma convert_cells_ok (sig : dict) (pairs : list (value * str)) :
  exists cells, convert_cells sig pairs = Ok cells.
Proof.
  induction pairs as [|[v column] rest [cs IH]]; simpl; [now eexists|].
  destruct (convert_value_ok sig v column) as [c ->]. simpl.
  rewrite IH. simpl. now eexists.
Qed.

Lemma convert_cells_row_cells (sig : dict) (cols : list str) (row : list value) :
  convert_cells sig (combine row cols) = Ok (row_cells sig cols row).
Proof.
  unfold row_cells.
  destruct (convert_cells_ok sig (combine row cols)) as [cs ->]. reflexivity.
Qed.

Lemma yielded_app (a b : list event) :
  yielded (a ++ b) = yielded a ++ yielded b.
Proof.
  induction a as [|[l|p t|e] a IH]; simpl; auto. now rewrite IH.
Qed.

Lemma progress_calls_app (a b : list event) :
  progress_calls (a ++ b) = progress_calls a ++ progress_calls b.
Proof.
  induction a as [|[l|p t|e] a IH]; simpl; auto. now rewrite IH.
Qed.

Section RowLoop.

Variables (sep mode q : str) (sig : dict) (cols : list str).
Variables (report : bool) (total : nat).

Lemma row_loop_step (idx : nat) (row : list value)
      (rest : list (list value)) (after : list event) :
  row_loop sep mode q sig cols report total idx (row :: rest) after
  = Yield (row_line sep mode q sig cols row)
      :: (if report && every_1000th idx then [Progress idx total] else [])
      ++ row_loop sep mode q sig cols report total (S idx) rest after.
Proof.
  unfold row_line. simpl.
  now rewrite convert_cells_row_cells.
Qed.

Lemma row_loop_trace (idx : nat) (row_iter : list (list value))
      (after : list event) :
  row_loop sep mode q sig cols report total idx row_iter after
  = flat_map
      (fun '(k, row) =>
         Yield (row_line sep mode q sig cols row)
           :: (if report && every_1000th k then [Progress k total] else []))
      (combine (seq idx (length row_iter)) row_iter)
      ++ after.
Proof.
  revert idx. induction row_iter as [|row rest IH]; intros idx.
  - reflexivity.
  - rewrite row_loop_step, IH. cbn [length seq combine flat_map].
    rewrite <- !app_comm_cons, <- app_assoc. reflexivity.
Qed.

Lemma yielded_row_loop (idx : nat) (row_iter : list (list value))
      (after : list event) :
  yielded (row_loop sep mode q sig cols report total idx row_iter after)
  = map (row_line sep mode q sig cols) row_iter ++ yielded after.
Proof.
  revert idx. induction row_iter as [|row rest IH]; intros idx.
  - reflexivity.
  - rewrite row_loop_step. cbn [yielded map].
    rewrite yielded_app, IH.
    destruct (report && every_1000th idx); reflexivity.
Qed.

Lemma progress_row_loop (idx : nat) (row_iter : list (list value))
      (after : list event) :
  progress_calls (row_loop sep mode q sig cols report total idx row_iter after)
  = map (fun k => (k, total))
        (filter (fun k => report && every_1000th k)
                (seq idx (length row_iter)))
      ++ progress_calls after.
Proof.
  revert idx. induction row_iter as [|row rest IH]; intros idx.
  - reflexivity.
  - rewrite row_loop_step. cbn [progress_calls length seq filter].
    rewrite progress_calls_app, IH.
    destruct (report && every_1000th idx); reflexivity.
Qed.

Lemma aborted_row_loop (idx : nat) (row_iter : list (list value))
      (after : list event) :
  aborted (row_loop sep mode q sig cols report total idx row_iter after)
  = aborted after.
Proof.
  revert idx. induction row_iter as [|row rest IH]; intros idx.
  - reflexivity.
  - rewrite row_loop_step. unfold aborted in *. cbn [existsb].
    rewrite existsb_app, IH.
    destruct (report && every_1000th idx); reflexivity.
Qed.

End RowLoop.

(** ** Lines emitted *)

Lemma yielded_iter_csv_lines (self : App) (df : DataFrame)
      (limit : option nat) (progress_callback : bool) :
  yielded (iter_csv_lines self df limit progress_callback)
  = header_line (effective_separator self) (quoting_mode_var self)
      (effective_quote_char self) (columns df)
    :: map (row_line (effective_separator self) (quoting_mode_var self)
              (effective_quote_char self) (significant_figures self)
              (columns df))
           (islice (rows df) limit).
Proof.
  unfold iter_csv_lines. rewrite yielded_app. cbn [yielded].
  rewrite yielded_row_loop.
  destruct (progress_callback && is_none limit); simpl;
    now rewrite app_nil_r.
Qed.

Lemma iter_csv_lines_not_aborted (self : App) (df : DataFrame)
      (limit : option nat) (progress_callback : bool) :
  aborted (iter_csv_lines self df limit progress_callback) = false.
Proof.
  unfold iter_csv_lines, aborted. rewrite existsb_app. cbn [existsb].
  fold (aborted (row_loop (effective_separator self) (quoting_mode_var self)
    (effective_quote_char self) (significant_figures self) (columns df)
    (progress_callback && is_none limit) (length (rows df)) 1
    (islice (rows df) limit)
    (if progress_callback && is_none limit
     then [Progress (length (rows df)) (length (rows df))] else []))).
  rewrite aborted_row_loop.
  destruct (progress_callback && is_none limit); reflexivity.
Qed.

(** C8: formatting a cell never raises, whatever the value and the
    precision, and no pass is cut short by a cell; when the rounding step
    raises, [format_number] returns the natural representation of the
    value. *)
Theorem formatting_never_raises :
  (forall (sig : dict) (v : value) (column : str),
      exists cell, convert_value sig v column = Ok cell)
  /\ (forall (n : Number) (sig_figs : option Z),
         exists s, format_number n sig_figs = Ok s)
  /\ (forall (n : Number) (p : Z) (e : exn),
         (f <- num_float n ;; PyFloat.format_g f p) = Raise e ->
         format_number n (Some p) = Ok (num_str n))
  /\ (forall (self : App) (df : DataFrame) (limit : option nat)
             (progress_callback : bool),
         aborted (iter_csv_lines self df limit progress_callback) = false).
Proof.
  split; [exact convert_value_ok | split; [exact format_number_ok | split]].
  - intros n p e H. unfold format_number. now rewrite H.
  - exact iter_csv_lines_not_aborted.
Qed.

(** C5: the generator runs to its end and yields the header line and then
    one line per row, in row order: [len(df) + 1] lines without a limit and
    [min(limit, len(df)) + 1] lines with one. *)
Theorem header_then_one_line_per_row (self : App) (df : DataFrame)
        (progress_callback : bool) :
  (forall limit,
      aborted (iter_csv_lines self df limit progress_callback) = false
      /\ yielded (iter_csv_lines self df limit progress_callback)
         = header_line (effective_separator self) (quoting_mode_var self)
             (effective_quote_char self) (columns df)
           :: map (row_line (effective_separator self) (quoting_mode_var self)
                     (effective_quote_char self) (significant_figures self)
                     (columns df))
                  (islice (rows df) limit))
  /\ length (yielded (iter_csv_lines self df None progress_callback))
     = length (rows df) + 1
  /\ (forall n,
         length (yielded (iter_csv_lines self df (Some n) progress_callback))
         = Nat.min n (length (rows df)) + 1).
Proof.
  split; [|split].
  - intros limit. split.
    + apply iter_csv_lines_not_aborted.
    + apply yielded_iter_csv_lines.
  - rewrite yielded_iter_csv_lines. cbn [length islice].
    rewrite length_map. lia.
  - intros n. rewrite yielded_iter_csv_lines. cbn [length islice].
    rewrite length_map, length_firstn. lia.
Qed.

(** ** Progress reports *)

Lemma filter_seq_sorted (P : nat -> bool) (len start : nat) :
  StronglySorted le (filter P (seq start len)).
Proof.
  revert start. induction len as [|len IH]; intros start; simpl.
  - constructor.
  - destruct (P start); [|apply IH].
    constructor; [apply IH|].
    apply Forall_forall. intros x Hx.
    apply filter_In in Hx. destruct Hx as [Hx _].
    apply in_seq in Hx. lia.
Qed.

Lemma sorted_snoc (l : list nat) (n : nat) :
  StronglySorted le l -> Forall (fun x => x <= n) l ->
  StronglySorted le (l ++ [n]).
Proof.
  induction 1 as [|a l Hs IH Ha]; intros Hn; simpl.
  - repeat constructor.
  - inversion Hn; subst. constructor; [auto|].
    apply Forall_app. split; [exact Ha | repeat constructor; assumption].
Qed.

Lemma map_fst_pair (total : nat) (l : list nat) :
  map fst (map (fun k => (k, total)) l) = l.
Proof. induction l; simpl; congruence. Qed.

Lemma progress_iter_csv_lines (self : App) (df : DataFrame) :
  progress_calls (iter_csv_lines self df None true)
  = (0, length (rows df))
      :: map (fun k => (k, length (rows df)))
             (filter every_1000th (seq 1 (length (rows df))))
      ++ [(length (rows df), length (rows df))].
Proof.
  unfold iter_csv_lines. cbn [andb is_none app progress_calls islice].
  now rewrite progress_row_loop.
Qed.

Lemma multiples_of_1000 (n : nat) :
  filter every_1000th (seq 1 n) = map (fun j => 1000 * j) (seq 1 (n / 1000)).
Proof.
  induction n as [|n IH]; [reflexivity|].
  rewrite seq_S, filter_app, IH. cbn [filter]. unfold every_1000th.
  pose proof (Nat.div_mod_eq n 1000) as Hn.
  pose proof (Nat.mod_upper_bound n 1000) as Hr.
  pose proof (Nat.div_mod_eq (1 + n) 1000) as Hn'.
  pose proof (Nat.mod_upper_bound (1 + n) 1000) as Hr'.
  change (S n) with (1 + n).
  destruct (Nat.eqb_spec ((1 + n) mod 1000) 0) as [E|E].
  - assert (Hq : (1 + n) / 1000 = S (n / 1000)) by lia.
    rewrite Hq, seq_S, map_app. cbn [map]. do 2 f_equal. lia.
  - assert (Hq : (1 + n) / 1000 = n / 1000) by lia.
    rewrite Hq. apply app_nil_r.
Qed.

Lemma nth_error_combine_seq {A : Type} (l : list A) (start i : nat) (x : A) :
  nth_error l i = Some x ->
  nth_error (combine (seq start (length l)) l) i = Some (start + i, x).
Proof.
  revert start i. induction l as [|y l IH]; intros start [|i] H;
    simpl in *; try discriminate.
  - inversion H. now rewrite Nat.add_0_r.
  - rewrite (IH (S start) i H). do 2 f_equal. lia.
Qed.

Lemma trace_iter_csv_lines (self : App) (df : DataFrame) :
  iter_csv_lines self df None true
  = Progress 0 (length (rows df))
      :: Yield (header_line (effective_separator self) (quoting_mode_var self)
                  (effective_quote_char self) (columns df))
      :: flat_map
           (fun '(k, row) =>
              Yield (row_line (effective_separator self)
                       (quoting_mode_var self) (effective_quote_char self)
                       (significant_figures self) (columns df) row)
                :: (if Nat.eqb (k mod 1000) 0
                    then [Progress k (length (rows df))] else []))
           (combine (seq 1 (length (rows df))) (rows df))
      ++ [Progress (length (rows df)) (length (rows df))].
Proof.
  unfold iter_csv_lines. cbn [andb is_none app islice].
  now rewrite row_loop_trace.
Qed.

(** C9: in a pass without row limit the callback is called with
    [(0, total)], then with [(k, total)] right after the line of each row
    whose number [k] satisfies [k mod 1000 = 0], that is with
    [(1000, total)], [(2000, total)], ... up to the last multiple of 1000 that
    is at most [total], then with [(total, total)]; the reported counts never
    decrease.  A pass with a row limit, or without a callback, reports
    nothing. *)
Theorem progress_reports (self : App) (df : DataFrame) :
  let total := length (rows df) in
  let sep := effective_separator self in
  let mode := quoting_mode_var self in
  let q := effective_quote_char self in
  iter_csv_lines self df None true
  = Progress 0 total
      :: Yield (header_line sep mode q (columns df))
      :: flat_map
           (fun '(k, row) =>
              Yield (row_line sep mode q (significant_figures self)
                       (columns df) row)
                :: (if Nat.eqb (k mod 1000) 0 then [Progress k total] else []))
           (combine (seq 1 total) (rows df))
      ++ [Progress total total]
  /\ progress_calls (iter_csv_lines self df None true)
     = (0, total)
         :: map (fun j => (1000 * j, total)) (seq 1 (total / 1000))
         ++ [(total, total)]
  /\ (forall k,
         In (Progress k total)
            (flat_map
               (fun '(k, row) =>
                  Yield (row_line sep mode q (significant_figures self)
                           (columns df) row)
                    :: (if Nat.eqb (k mod 1000) 0
                        then [Progress k total] else []))
               (combine (seq 1 total) (rows df)))
         <-> 1 <= k <= total /\ k mod 1000 = 0)
  /\ StronglySorted le
       (map fst (progress_calls (iter_csv_lines self df None true)))
  /\ (forall n progress_callback,
         progress_calls (iter_csv_lines self df (Some n) progress_callback) = [])
  /\ (forall limit, progress_calls (iter_csv_lines self df limit false) = []).
Proof.
  intros total sep mode q. split; [|split; [|split; [|split; [|split]]]].
  - apply trace_iter_csv_lines.
  - rewrite progress_iter_csv_lines, multiples_of_1000, map_map.
    reflexivity.
  - intros k. rewrite in_flat_map. split.
    + intros [[k' row] [Hin Hk]].
      pose proof (in_combine_l _ _ _ _ Hin) as Hseq.
      apply in_seq in Hseq.
      destruct Hk as [Hk | Hk]; [discriminate|].
      destruct (Nat.eqb_spec (k' mod 1000) 0) as [E|E]; [|destruct Hk].
      destruct Hk as [Hk | []]. inversion Hk; subst k'.
      split; [lia | exact E].
    + intros [Hk E].
      assert (Hlen : k - 1 < length (rows df)) by (fold total; lia).
      destruct (nth_error (rows df) (k - 1)) as [row|] eqn:Hrow;
        [|apply nth_error_None in Hrow; lia].
      exists (k, row). split.
      * apply (nth_error_combine_seq _ 1) in Hrow.
        replace (1 + (k - 1)) with k in Hrow by lia.
        eapply nth_error_In. exact Hrow.
      * right. rewrite E. cbn [Nat.eqb]. now left.
  - rewrite progress_iter_csv_lines. fold total.
    cbn [map fst]. rewrite map_app, map_fst_pair. cbn [map fst].
    constructor.
    + apply sorted_snoc; [apply filter_seq_sorted|].
      apply Forall_forall. intros x Hx.
      apply filter_In in Hx. destruct Hx as [Hx _].
      apply in_seq in Hx. lia.
    + apply Forall_forall. intros x _. lia.
  - intros n cb. unfold iter_csv_lines.
    rewrite andb_false_r. cbn [is_none app progress_calls].
    rewrite progress_row_loop. cbn [andb is_none].
    assert (H : forall l, filter (fun _ : nat => false) l = []).
    { induction l; simpl; auto. }
    cbn [andb]. rewrite H. reflexivity.
  - intros limit. unfold iter_csv_lines.
    cbn [andb app progress_calls].
    rewrite progress_row_loop. cbn [andb].
    assert (H : forall l, filter (fun _ : nat => false) l = []).
    { induction l; simpl; auto. }
    rewrite H. reflexivity.
Qed.

(** ** An empty separator *)

Lemma validate_settings_no_separator (self : App) (show_dialog : bool) :
  truthy_opt (get_separator self) = false ->
  validate_settings self show_dialog
  = (false,
     if show_dialog
     then [showerror (lit "Invalid separator")
                     (lit "Please provide a non-empty separator.")]
     else []).
Proof. intros H. unfold validate_settings. now rewrite H. Qed.

(** C4, as the code has it: with an empty separator [validate_settings]
    fails.  [save_csv] then never starts a conversion, so no row is read and
    nothing is written: with a workbook selected it stops on the
    "Invalid separator" error dialog, and without one on the "Select file"
    notice that comes before validation.  [refresh_preview] returns at once,
    without a dialog, and leaves the state as it was.  [iter_csv_lines]
    itself would take the default separator. *)
Theorem empty_separator_rejected (self : App) :
  truthy_opt (get_separator self) = false ->
  (forall show_dialog,
      validate_settings self show_dialog
      = (false,
         if show_dialog
         then [showerror (lit "Invalid separator")
                         (lit "Please provide a non-empty separator.")]
         else []))
  /\ (forall filename,
         excel_path self <> None ->
         save_csv self filename
         = NotStarted [showerror (lit "Invalid separator")
                                 (lit "Please provide a non-empty separator.")])
  /\ (forall filename,
         excel_path self = None ->
         save_csv self filename
         = NotStarted [showinfo (lit "Select file")
                                (lit "Please choose an Excel file first.")])
  /\ (forall selection read, refresh_preview self selection read = (self, []))
  /\ effective_separator self = DEFAULT_SEPARATOR.
Proof.
  intros H. split; [|split; [|split; [|split]]].
  - intros b. now apply validate_settings_no_separator.
  - intros filename Hpath. unfold save_csv.
    destruct (excel_path self); [|congruence].
    now rewrite validate_settings_no_separator.
  - intros filename Hpath. unfold save_csv. now rewrite Hpath.
  - intros selection read. unfold refresh_preview.
    destruct (excel_path self); [|reflexivity].
    now rewrite validate_settings_no_separator.
  - unfold effective_separator.
    destruct (get_separator self) as [[|c s]|]; simpl in *; congruence.
Qed.

Lemma empty_separator_rejected_custom_empty :
  (forall show_dialog,
      validate_settings no_separator_app show_dialog
      = (false,
         if show_dialog
         then [showerror (lit "Invalid separator")
                         (lit "Please provide a non-empty separator.")]
         else []))
  /\ (forall filename,
         excel_path no_separator_app <> None ->
         save_csv no_separator_app filename
         = NotStarted [showerror (lit "Invalid separator")
                                 (lit "Please provide a non-empty separator.")])
  /\ (forall filename,
         excel_path no_separator_app = None ->
         save_csv no_separator_app filename
         = NotStarted [showinfo (lit "Select file")
                                (lit "Please choose an Excel file first.")])
  /\ (forall selection read,
         refresh_preview no_separator_app selection read
         = (no_separator_app, []))
  /\ effective_separator no_separator_app = DEFAULT_SEPARATOR.
Proof. exact (empty_separator_rejected no_separator_app eq_refl). Defined.

(** C4, as stated, fails on [iter_csv_lines]: with the custom separator
    left empty the generator raises nothing and joins the fields with a
    comma. *)
Lemma empty_separator_silently_defaulted :
  get_separator no_separator_app = None
  /\ iter_csv_lines no_separator_app df_ab None false
     = [Yield (lit "a,b"); Yield (lit "x,y")].
Proof. split; reflexivity. Qed.

(** ** Significant figures *)

Lemma sample_floats_binary64 :
  PyFloat.is_binary64 f_1_5e10 = true
  /\ PyFloat.is_binary64 f_3_14159 = true
  /\ PyFloat.is_binary64 f_2_0 = true.
Proof. repeat split; reflexivity. Qed.

(** The two scenarios of the specification. *)
Lemma format_number_scenarios :
  format_number n_3_14159 (Some 3%Z) = Ok (lit "3.14")
  /\ format_number n_2_0 (Some 3%Z) = Ok (lit "2")
  /\ format_number n_3_14159 None = Ok (lit "3.14159").
Proof. repeat split; vm_compute; reflexivity. Qed.

Lemma format_number_fallbacks :
  format_number n_complex (Some 3%Z) = Ok (lit "(1+2j)")
  /\ format_number n_2_0 (Some (-1)%Z) = Ok (lit "2.0").
Proof. repeat split; vm_compute; reflexivity. Qed.

(** C3 fails on the code: [format(15000000000.0, ".3g")] is the rounded
    value in scientific notation, and the [rstrip] of
    [format_number] then takes the zero of the exponent. *)
Theorem format_number_strips_exponent_zero :
  PyFloat.format_g f_1_5e10 3 = Ok (lit "1.5e+10")
  /\ format_number n_1_5e10 (Some 3%Z) = Ok (lit "1.5e+1").
Proof. split; vm_compute; reflexivity. Qed.

(** ** Dates and times *)

Lemma datetime_midnight_date_only (sig : dict) (d : datetime) (column : str) :
  dt_tzinfo d = None -> at_midnight d = true ->
  convert_value sig (VDatetime d) column = Ok (date_isoformat (dt_date d), false).
Proof. intros Htz Hm. unfold convert_value. simpl. now rewrite Htz, Hm. Qed.

Lemma datetime_with_time (sig : dict) (d : datetime) (column : str) :
  dt_tzinfo d <> None \/ at_midnight d = false ->
  convert_value sig (VDatetime d) column
  = Ok (date_isoformat (dt_date d) ++ lit "T" ++ time_isoformat d, false).
Proof.
  intros H. unfold convert_value. simpl.
  destruct (dt_tzinfo d) eqn:Htz; [reflexivity|].
  destruct H as [H|H]; [congruence|]. now rewrite H.
Qed.

Lemma timestamp_midnight_date_only (sig : dict) (ts : Timestamp) (column : str) :
  dt_tzinfo (ts_datetime ts) = None -> at_midnight (ts_datetime ts) = true ->
  convert_value sig (VTimestamp ts) column
  = Ok (date_isoformat (dt_date (ts_datetime ts)), false).
Proof. intros Htz Hm. unfold convert_value. simpl. now rewrite Htz, Hm. Qed.

Lemma timestamp_with_time (sig : dict) (ts : Timestamp) (column : str) :
  dt_tzinfo (ts_datetime ts) <> None \/ at_midnight (ts_datetime ts) = false ->
  convert_value sig (VTimestamp ts) column = Ok (timestamp_isoformat ts, false).
Proof.
  intros H. unfold convert_value. simpl.
  destruct (dt_tzinfo (ts_datetime ts)) eqn:Htz; [reflexivity|].
  destruct H as [H|H]; [congruence|]. now rewrite H.
Qed.

Lemma datetime_scenarios :
  convert_value [] (VDatetime dt_midnight) (lit "when")
    = Ok (lit "2024-01-15", false)
  /\ convert_value [] (VDatetime dt_morning) (lit "when")
     = Ok (lit "2024-01-15T08:30:00", false).
Proof. split; vm_compute; reflexivity. Qed.

(** C6 fails on the code for a [pd.Timestamp]: the test looks at the
    microseconds and not at the nanoseconds, so a naive timestamp 500 ns
    after midnight is emitted as a date, although its ISO form has a time
    component. *)
Theorem timestamp_nanoseconds_dropped :
  at_midnight (ts_datetime ts_500ns) = true
  /\ nanosecond ts_500ns = 500%N
  /\ timestamp_isoformat ts_500ns = lit "2024-01-15T00:00:00.000000500"
  /\ convert_value [] (VTimestamp ts_500ns) (lit "when")
     = Ok (lit "2024-01-15", false).
Proof. repeat split; vm_compute; reflexivity. Qed.

(** ** A full pass *)

Lemma hello_world_row :
  iter_csv_lines default_app df_hello None false
  = [Yield (DQUOTE :: lit "n" ++ [DQUOTE] ++ lit ","
              ++ DQUOTE :: lit "greeting" ++ [DQUOTE]);
     Yield (lit "42," ++ DQUOTE :: lit "hello, world" ++ [DQUOTE])].
Proof. vm_compute. reflexivity. Qed.

(** * Further properties *)

(** ** Validation *)

Lemma eqb_refl (a : str) : PyStr.eqb a a = true.
Proof. now apply eqb_eq. Qed.

Lemma eqb_neq (a b : str) : PyStr.eqb a b = false <-> a <> b.
Proof.
  rewrite <- eqb_eq. destruct (PyStr.eqb a b); split; congruence.
Qed.

Lemma mem_In (x : str) (options : list str) :
  mem x options = true <-> In x options.
Proof.
  unfold mem. rewrite existsb_exists. split.
  - intros [y [Hy E]]. apply eqb_eq in E. now subst.
  - intros H. exists x. split; [exact H | apply eqb_refl].
Qed.

(** Settings that pass validation are the ones the serializer works with:
    the separator is the configured one and is not empty, the quote is one
    character, and outside mode "none" it is the configured one. *)
Theorem validated_settings_are_used (self : App) (show_dialog : bool) :
  fst (validate_settings self show_dialog) = true ->
  get_separator self = Some (effective_separator self)
  /\ effective_separator self <> []
  /\ (exists qc, effective_quote_char self = [qc])
  /\ (quoting_mode_var self <> lit "none" ->
      get_quote_char self = Some (effective_quote_char self)).
Proof.
  intros Hvalid.
  destruct (valid_quote_single self show_dialog Hvalid) as [qc Hqc].
  revert Hvalid Hqc. unfold validate_settings, effective_separator,
    effective_quote_char.
  destruct (get_separator self) as [[|c s]|]; simpl; try discriminate.
  intros Hvalid Hqc. repeat split; try discriminate.
  - now exists qc.
  - intros Hmode. apply eqb_neq in Hmode. rewrite Hmode in Hvalid.
    destruct (get_quote_char self) as [[|c' s']|]; simpl in *;
      try discriminate. reflexivity.
Qed.

Lemma validated_settings_are_used_default :
  get_separator default_app = Some (effective_separator default_app)
  /\ effective_separator default_app <> []
  /\ (exists qc, effective_quote_char default_app = [qc])
  /\ (quoting_mode_var default_app <> lit "none" ->
      get_quote_char default_app = Some (effective_quote_char default_app)).
Proof. exact (validated_settings_are_used default_app true eq_refl). Defined.

(** The verdict of [validate_settings] does not depend on [show_dialog];
    no dialog is opened when the settings are valid or when [show_dialog]
    is off, and exactly one error dialog otherwise. *)
Theorem validate_settings_dialogs (self : App) :
  snd (validate_settings self false) = []
  /\ fst (validate_settings self true) = fst (validate_settings self false)
  /\ (fst (validate_settings self true) = true ->
      snd (validate_settings self true) = [])
  /\ (fst (validate_settings self true) = false ->
      exists title message,
        snd (validate_settings self true) = [showerror title message]).
Proof.
  unfold validate_settings.
  destruct (negb (truthy_opt (get_separator self)));
    [|destruct (negb (PyStr.eqb (quoting_mode_var self) (lit "none"))
               && negb (truthy_opt (get_quote_char self)));
      [|destruct (truthy_opt (get_quote_char self)
                  && negb (Nat.eqb (opt_len (get_quote_char self)) 1))]];
    simpl; repeat split; try discriminate; intros _; eauto.
Qed.

(** ** A limited pass and the full pass *)

(** The lines of a pass limited to [n] rows are the first [n + 1] lines of
    the unlimited pass over the same frame. *)
Theorem limited_pass_is_prefix (self : App) (df : DataFrame) (n : nat)
        (cb cb' : bool) :
  yielded (iter_csv_lines self df (Some n) cb)
  = firstn (S n) (yielded (iter_csv_lines self df None cb')).
Proof.
  rewrite !yielded_iter_csv_lines. cbn [islice firstn].
  now rewrite firstn_map.
Qed.

(** ** Pruning the precision entries *)

Lemma dict_get_pruned (d : dict) (cols : list str) (key : str) :
  dict_get (filter (fun kv => existsb (PyStr.eqb (fst kv)) cols) d) key
  = if mem key cols then dict_get d key else None.
Proof.
  induction d as [|[k v] rest IH]; simpl.
  - now destruct (mem key cols).
  - fold (mem k cols). destruct (mem k cols) eqn:Hk; simpl.
    + destruct (PyStr.eqb k key) eqn:E; [|exact IH].
      apply eqb_eq in E. subst k. now rewrite Hk.
    + rewrite IH. destruct (PyStr.eqb k key) eqn:E; [|reflexivity].
      apply eqb_eq in E. subst k. now rewrite Hk.
Qed.

Lemma convert_value_ext (sig1 sig2 : dict) (v : value) (column : str) :
  dict_get sig1 column = dict_get sig2 column ->
  convert_value sig1 v column = convert_value sig2 v column.
Proof.
  intros H. unfold convert_value. destruct v; try reflexivity.
  now rewrite H.
Qed.

Lemma convert_cells_ext (sig1 sig2 : dict) (pairs : list (value * str)) :
  (forall v column, In (v, column) pairs ->
                    dict_get sig1 column = dict_get sig2 column) ->
  convert_cells sig1 pairs = convert_cells sig2 pairs.
Proof.
  induction pairs as [|[v column] rest IH]; intros H; simpl; [reflexivity|].
  rewrite (convert_value_ext sig1 sig2 v column) by (apply (H v); now left).
  rewrite IH; [reflexivity|]. intros v' c' Hin. apply (H v'). now right.
Qed.

Lemma row_loop_ext (sep mode q : str) (sig1 sig2 : dict) (cols : list str)
      (report : bool) (total : nat) (row_iter : list (list value))
      (after : list event) :
  (forall column, In column cols ->
                  dict_get sig1 column = dict_get sig2 column) ->
  forall idx,
    row_loop sep mode q sig1 cols report total idx row_iter after
    = row_loop sep mode q sig2 cols report total idx row_iter after.
Proof.
  intros H. induction row_iter as [|row rest IH]; intros idx; simpl;
    [reflexivity|].
  rewrite (convert_cells_ext sig1 sig2).
  - destruct (convert_cells sig2 (combine row cols)); [|reflexivity].
    now rewrite IH.
  - intros v column Hin. apply H. eapply in_combine_r. exact Hin.
Qed.

Lemma iter_csv_lines_pruned (self : App) (df : DataFrame)
      (limit : option nat) (progress_callback : bool) :
  iter_csv_lines (update_column_list self (columns df)) df limit
                 progress_callback
  = iter_csv_lines self df limit progress_callback.
Proof.
  unfold iter_csv_lines.
  change (effective_separator (update_column_list self (columns df)))
    with (effective_separator self).
  change (effective_quote_char (update_column_list self (columns df)))
    with (effective_quote_char self).
  change (quoting_mode_var (update_column_list self (columns df)))
    with (quoting_mode_var self).
  f_equal. f_equal. apply row_loop_ext.
  intros column Hin. cbn [update_column_list significant_figures].
  rewrite dict_get_pruned.
  apply mem_In in Hin. now rewrite Hin.
Qed.

(** [update_column_list] keeps the precision of every column of the frame
    and forgets the others; every key left is a column. *)
Theorem update_column_list_prunes (self : App) (cols : list str) :
  (forall key,
      dict_get (significant_figures (update_column_list self cols)) key
      = if mem key cols then dict_get (significant_figures self) key else None)
  /\ Forall (fun kv => In (fst kv) cols)
            (significant_figures (update_column_list self cols))
  /\ update_column_list (update_column_list self cols) cols
     = update_column_list self cols.
Proof.
  split; [|split].
  - intros key. apply dict_get_pruned.
  - apply Forall_forall. intros kv Hin.
    cbn [update_column_list significant_figures] in Hin.
    apply filter_In in Hin. destruct Hin as [_ Hin].
    now apply mem_In.
  - unfold update_column_list. cbn. f_equal.
    apply forallb_filter_id. apply forallb_filter.
Qed.

(** Dropping the entries of columns that are not in the frame does not
    change any line or progress report of a pass over that frame. *)
Theorem pruning_keeps_output (self : App) (df : DataFrame)
        (limit : option nat) (progress_callback : bool) :
  iter_csv_lines (update_column_list self (columns df)) df limit
                 progress_callback
  = iter_csv_lines self df limit progress_callback.
Proof. apply iter_csv_lines_pruned. Qed.

(** ** The preview *)

Lemma selection_raises_iff (selection : option str) (cols : list str) :
  selection_raises selection cols = true
  <-> exists v, selection = Some v /\ In v cols.
Proof.
  destruct selection as [v|]; simpl.
  - fold (mem v cols). rewrite mem_In. split.
    + intros H. now exists v.
    + intros [v' [E H]]. now inversion E; subst.
  - split; [discriminate | intros [v [E _]]; discriminate].
Qed.


Lemma refresh_preview_raised (self : App) (selection : option str)
      (df : DataFrame) :
  excel_path self <> None ->
  fst (validate_settings self false) = true ->
  selection_raises selection (columns df) = true ->
  refresh_preview self selection (ReadOk df)
  = (update_column_list self (columns df), [preview_error INDEX_ERROR]).
Proof.
  intros Hpath Hvalid Hsel. unfold refresh_preview.
  destruct (excel_path self); [|congruence].
  now rewrite Hvalid, Hsel.
Qed.



(** ** Saving *)

Lemma write_lines_spec (encodable : str -> bool) (newline : str)
      (evs : list event) :
  encodable newline = true -> aborted evs = false ->
  concat (fst (fst (write_lines encodable newline evs)))
  = flat_map (fun line => line ++ newline)
             (take_while encodable (yielded evs))
  /\ snd (write_lines encodable newline evs) = forallb encodable (yielded evs)
  /\ (snd (write_lines encodable newline evs) = true ->
      snd (fst (write_lines encodable newline evs)) = progress_calls evs).
Proof.
  intros Hnl. induction evs as [|[line|processed total|e] rest IH];
    intros Hab; cbn [write_lines yielded progress_calls take_while forallb].
  - repeat split.
  - destruct (encodable line); [|repeat split; discriminate].
    rewrite Hnl. destruct (IH Hab) as (Hw & Hok & Hp).
    destruct (write_lines encodable newline rest) as [[w p] ok].
    cbn [fst snd concat flat_map andb] in *.
    rewrite Hw, <- app_assoc. repeat split; assumption.
  - destruct (IH Hab) as (Hw & Hok & Hp).
    destruct (write_lines encodable newline rest) as [[w p] ok].
    cbn [fst snd] in *. repeat split; try assumption.
    intros H. now rewrite Hp.
  - discriminate Hab.
Qed.

(** [save_csv] starts the conversion exactly when a workbook is selected,
    the settings are valid and the file dialog gave a name.  The conversion
    writes nothing when the workbook cannot be read or the file cannot be
    opened.  Otherwise the file holds the header line and the lines of the
    rows, each followed by the line terminator, up to the first line the codec
    cannot encode; the conversion succeeds exactly when every line can be
    encoded, and has then made every progress report. *)
Theorem save_then_convert (encodable : str -> bool) (self : App)
        (filename : str) (df : DataFrame) (newline : str) :
  (forall output_path,
      save_csv self filename = Started output_path
      <-> excel_path self <> None
          /\ fst (validate_settings self true) = true
          /\ filename <> []
          /\ output_path = filename)
  /\ (forall message opened,
         perform_conversion encodable self (ReadFailed message) opened newline
         = {| written := None; reported := []; succeeded := false |})
  /\ perform_conversion encodable self (ReadOk df) false newline
     = {| written := None; reported := []; succeeded := false |}
  /\ (encodable newline = true ->
      exists chunks,
        written (perform_conversion encodable self (ReadOk df) true newline)
        = Some chunks
        /\ concat chunks
           = flat_map (fun line => line ++ newline)
               (take_while encodable
                  (header_line (effective_separator self)
                     (quoting_mode_var self) (effective_quote_char self)
                     (columns df)
                   :: map (row_line (effective_separator self)
                             (quoting_mode_var self)
                             (effective_quote_char self)
                             (significant_figures self) (columns df))
                          (rows df)))
        /\ succeeded
             (perform_conversion encodable self (ReadOk df) true newline)
           = forallb encodable
               (header_line (effective_separator self)
                  (quoting_mode_var self) (effective_quote_char self)
                  (columns df)
                :: map (row_line (effective_separator self)
                          (quoting_mode_var self)
                          (effective_quote_char self)
                          (significant_figures self) (columns df))
                       (rows df))
        /\ (succeeded
              (perform_conversion encodable self (ReadOk df) true newline)
            = true ->
            reported
              (perform_conversion encodable self (ReadOk df) true newline)
            = progress_calls (iter_csv_lines self df None true))).
Proof.
  split; [|split; [|split]].
  - intros output_path. unfold save_csv.
    destruct (excel_path self) as [path|].
    + destruct (validate_settings self true) as [ok dialogs]. cbn [fst].
      destruct ok; cbn [negb].
      * destruct filename as [|c s]; cbn [PyStr.truthy negb].
        -- split; [discriminate | intros (_ & _ & H & _); congruence].
        -- split.
           ++ intros H. inversion H; subst. repeat split; discriminate.
           ++ intros (_ & _ & _ & ->). reflexivity.
      * split; [discriminate | intros (_ & H & _); discriminate].
    + split; [discriminate | intros (H & _); congruence].
  - reflexivity.
  - reflexivity.
  - intros Hnl. unfold perform_conversion.
    destruct (write_lines_spec encodable newline
                (iter_csv_lines self df None true) Hnl
                (iter_csv_lines_not_aborted self df None true))
      as (Hw & Hok & Hp).
    rewrite yielded_iter_csv_lines in Hw, Hok. cbn [islice] in Hw, Hok.
    destruct (write_lines encodable newline (iter_csv_lines self df None true))
      as [[w p] ok].
    cbn [fst snd written succeeded reported] in *.
    exists w. repeat split; assumption.
Qed.

(** ** The fields of a row *)

Lemma convert_cells_length (sig : dict) (pairs : list (value * str))
      (cells : list (str * bool)) :
  convert_cells sig pairs = Ok cells -> length cells = length pairs.
Proof.
  revert cells. induction pairs as [|[v column] rest IH]; intros cells; simpl.
  - intros H. inversion H. reflexivity.
  - destruct (convert_value sig v column); simpl; [|discriminate].
    destruct (convert_cells sig rest) as [cs|]; simpl; [|discriminate].
    intros H. inversion H. simpl. f_equal. now apply IH.
Qed.

(** A row gives one field per column it has a value for: values beyond
    the last column are dropped and a short row gives a short line. *)
Theorem row_field_count (sig : dict) (cols : list str) (row : list value) :
  length (row_cells sig cols row) = Nat.min (length row) (length cols).
Proof.
  rewrite <- length_combine. apply (convert_cells_length sig).
  apply convert_cells_row_cells.
Qed.

(** ** The header *)

(** In modes "all" and "text" every column name of the header is quoted,
    whatever it holds: it is written between two quote characters, with every
    quote character inside it written twice. *)
Theorem header_names_quoted (self : App) (df : DataFrame) (qc : char) :
  quoting_mode_var self = lit "all" \/ quoting_mode_var self = lit "text" ->
  effective_quote_char self = [qc] ->
  header_line (effective_separator self) (quoting_mode_var self)
    (effective_quote_char self) (columns df)
  = PyStr.join (effective_separator self)
      (map (fun col => qc :: doubled qc col ++ [qc]) (columns df)).
Proof.
  intros Hmode Hq. unfold header_line, format_cells. f_equal.
  rewrite map_map. apply map_ext. intros col.
  unfold format_cell. rewrite Hq, escape_text_single.
  unfold needs_quote. destruct Hmode as [-> | ->]; reflexivity.
Qed.

Lemma header_names_quoted_default :
  header_line (effective_separator default_app) (quoting_mode_var default_app)
    (effective_quote_char default_app) (columns df_hello)
  = PyStr.join (effective_separator default_app)
      (map (fun col => DQUOTE :: doubled DQUOTE col ++ [DQUOTE])
           (columns df_hello)).
Proof.
  apply (header_names_quoted default_app df_hello DQUOTE).
  - right. reflexivity.
  - reflexivity.
Defined.

(** ** A quoting mode that is none of the three *)

Lemma needs_quote_unknown_mode (sep mode q text : str) (is_text : bool) :
  mode <> lit "all" -> mode <> lit "text" ->
  needs_quote sep mode q text is_text
  = needs_quote sep (lit "none") q text is_text.
Proof.
  intros Hall Htext. apply eqb_neq in Hall, Htext.
  unfold needs_quote. rewrite Hall, Htext. reflexivity.
Qed.

Lemma row_loop_mode_ext (sep mode mode' q : str) (sig : dict)
      (cols : list str) (report : bool) (total : nat)
      (row_iter : list (list value)) (after : list event) :
  (forall cell, format_cell sep mode q cell = format_cell sep mode' q cell) ->
  forall idx,
    row_loop sep mode q sig cols report total idx row_iter after
    = row_loop sep mode' q sig cols report total idx row_iter after.
Proof.
  intros H. induction row_iter as [|row rest IH]; intros idx; simpl;
    [reflexivity|].
  destruct (convert_cells sig (combine row cols)); [|reflexivity].
  rewrite IH. unfold format_cells. now rewrite (map_ext _ _ H).
Qed.

(** The quoting mode comes from the configuration file unchecked.  A mode
    that is neither "all" nor "text" serializes as mode "none" does. *)
Theorem unknown_mode_is_none (self : App) (df : DataFrame)
        (limit : option nat) (progress_callback : bool) :
  quoting_mode_var self <> lit "all" ->
  quoting_mode_var self <> lit "text" ->
  iter_csv_lines self df limit progress_callback
  = iter_csv_lines (with_quoting_mode self (lit "none")) df limit
                   progress_callback.
Proof.
  intros Hall Htext.
  assert (H : forall cell,
             format_cell (effective_separator self) (quoting_mode_var self)
               (effective_quote_char self) cell
             = format_cell (effective_separator self) (lit "none")
                 (effective_quote_char self) cell).
  { intros [text is_text]. unfold format_cell.
    now rewrite needs_quote_unknown_mode. }
  unfold iter_csv_lines.
  change (effective_separator (with_quoting_mode self (lit "none")))
    with (effective_separator self).
  change (effective_quote_char (with_quoting_mode self (lit "none")))
    with (effective_quote_char self).
  change (quoting_mode_var (with_quoting_mode self (lit "none")))
    with (lit "none").
  change (significant_figures (with_quoting_mode self (lit "none")))
    with (significant_figures self).
  f_equal. f_equal.
  - unfold format_cells. now rewrite (map_ext _ _ H).
  - now apply row_loop_mode_ext.
Qed.

Lemma unknown_mode_is_none_sample :
  iter_csv_lines (with_quoting_mode default_app (lit "minimal")) df_hello
                 None true
  = iter_csv_lines
      (with_quoting_mode (with_quoting_mode default_app (lit "minimal"))
                         (lit "none"))
      df_hello None true.
Proof.
  apply (unknown_mode_is_none
           (with_quoting_mode default_app (lit "minimal")) df_hello None true);
    discriminate.
Defined.

(** ** Setting and clearing a precision *)

Lemma dict_get_set_same (d : dict) (key : str) (v : Z) :
  dict_get (dict_set d key v) key = Some v.
Proof.
  induction d as [|[k x] rest IH]; simpl.
  - now rewrite eqb_refl.
  - destruct (PyStr.eqb k key) eqn:E; simpl; now rewrite E.
Qed.

Lemma dict_get_set_other (d : dict) (key other : str) (v : Z) :
  other <> key ->
  dict_get (dict_set d key v) other = dict_get d other.
Proof.
  intros Hne. induction d as [|[k x] rest IH]; simpl.
  - destruct (PyStr.eqb key other) eqn:E; [|reflexivity].
    apply eqb_eq in E. congruence.
  - destruct (PyStr.eqb k key) eqn:E; simpl.
    + apply eqb_eq in E. subst k.
      destruct (PyStr.eqb key other) eqn:E'; [|reflexivity].
      apply eqb_eq in E'. congruence.
    + now rewrite IH.
Qed.

Lemma dict_get_del_same (d : dict) (key : str) :
  dict_get (dict_del d key) key = None.
Proof.
  unfold dict_del. induction d as [|[k x] rest IH]; simpl; [reflexivity|].
  destruct (PyStr.eqb k key) eqn:E; simpl; [exact IH|].
  now rewrite E.
Qed.

Lemma dict_get_del_other (d : dict) (key other : str) :
  other <> key ->
  dict_get (dict_del d key) other = dict_get d other.
Proof.
  intros Hne. unfold dict_del.
  induction d as [|[k x] rest IH]; simpl; [reflexivity|].
  destruct (PyStr.eqb k key) eqn:E; simpl.
  - apply eqb_eq in E. subst k.
    destruct (PyStr.eqb key other) eqn:E'; [|exact IH].
    apply eqb_eq in E'. congruence.
  - now rewrite IH.
Qed.

Lemma all_positive_set (d : dict) (key : str) (v : Z) :
  (0 < v)%Z -> all_positive d -> all_positive (dict_set d key v).
Proof.
  intros Hv. unfold all_positive.
  induction d as [|[k x] rest IH]; intros H; simpl.
  - repeat constructor. exact Hv.
  - inversion H; subst. destruct (PyStr.eqb k key); constructor; auto.
Qed.

Lemma all_positive_filter (f : str * Z -> bool) (d : dict) :
  all_positive d -> all_positive (filter f d).
Proof.
  unfold all_positive. intros H. apply Forall_forall. intros kv Hin.
  apply filter_In in Hin. destruct Hin as [Hin _].
  revert kv Hin. now apply Forall_forall.
Qed.

(** What [refresh_preview] leaves of the precision entries. *)
Lemma refresh_preview_dict_get (self : App) (selection : option str)
      (df : DataFrame) (key : str) :
  In key (columns df) ->
  dict_get (significant_figures
              (fst (refresh_preview self selection (ReadOk df)))) key
  = dict_get (significant_figures self) key.
Proof.
  intros Hin. unfold refresh_preview.
  destruct (excel_path self); [|reflexivity].
  destruct (negb (fst (validate_settings self false))); [reflexivity|].
  destruct (selection_raises selection (columns df));
    cbn [fst display_preview significant_figures update_column_list];
    rewrite dict_get_pruned; apply mem_In in Hin; now rewrite Hin.
Qed.

Lemma refresh_preview_dict_none (self : App) (selection : option str)
      (read : read_result) (key : str) :
  dict_get (significant_figures self) key = None ->
  dict_get (significant_figures (fst (refresh_preview self selection read)))
           key = None.
Proof.
  intros Hnone. unfold refresh_preview.
  destruct (excel_path self); [|exact Hnone].
  destruct (negb (fst (validate_settings self false))); [exact Hnone|].
  destruct read as [df|message]; [|exact Hnone].
  destruct (selection_raises selection (columns df));
    cbn [fst display_preview significant_figures update_column_list];
    rewrite dict_get_pruned, Hnone; now destruct (mem key (columns df)).
Qed.

Lemma refresh_preview_all_positive (self : App) (selection : option str)
      (read : read_result) :
  all_positive (significant_figures self) ->
  all_positive (significant_figures (fst (refresh_preview self selection read))).
Proof.
  intros H. unfold refresh_preview.
  destruct (excel_path self); [|exact H].
  destruct (negb (fst (validate_settings self false))); [exact H|].
  destruct read as [df|message]; [|exact H].
  destruct (selection_raises selection (columns df));
    cbn [fst display_preview significant_figures update_column_list];
    now apply all_positive_filter.
Qed.

Section SigFigEntryFacts.

Variable strip : str -> str.
Variable int : str -> option Z.

(** A positive integer typed for a column of the frame is stored for that
    column and the precision of the other columns is left alone.  With a
    workbook selected and valid settings, the refresh that follows fails on
    the selected column: the "Preview error" dialog opens and the preview
    text stays as it was. *)
Theorem apply_sig_fig_stores (self : App) (column text : str)
        (df : DataFrame) (v : Z) :
  strip text <> [] -> int (strip text) = Some v -> (0 < v)%Z ->
  In column (columns df) ->
  dict_get (significant_figures
              (fst (apply_sig_fig strip int self (Some column) text
                      (ReadOk df))))
           column = Some v
  /\ (forall other,
         other <> column -> In other (columns df) ->
         dict_get (significant_figures
                     (fst (apply_sig_fig strip int self (Some column) text
                             (ReadOk df))))
                  other
         = dict_get (significant_figures self) other)
  /\ (excel_path self <> None ->
      fst (validate_settings self false) = true ->
      snd (apply_sig_fig strip int self (Some column) text (ReadOk df))
      = [showerror (lit "Preview error")
                   (lit "Unable to generate preview: " ++ INDEX_ERROR)]
      /\ preview_text
           (fst (apply_sig_fig strip int self (Some column) text (ReadOk df)))
         = preview_text self)
  /\ (excel_path self = None \/ fst (validate_settings self false) = false ->
      snd (apply_sig_fig strip int self (Some column) text (ReadOk df)) = []
      /\ preview_text
           (fst (apply_sig_fig strip int self (Some column) text (ReadOk df)))
         = preview_text self).
Proof.
  intros Hne Hint Hpos Hin. unfold apply_sig_fig.
  destruct (strip text) as [|c s] eqn:Hs; [congruence|].
  cbn [PyStr.truthy negb]. rewrite Hint.
  destruct (Z.leb_spec v 0) as [Hle|_]; [lia|].
  split; [|split; [|split]].
  - rewrite refresh_preview_dict_get by exact Hin.
    apply dict_get_set_same.
  - intros other Hother Hin'.
    rewrite refresh_preview_dict_get by exact Hin'.
    now apply dict_get_set_other.
  - intros Hpath Hvalid.
    rewrite refresh_preview_raised; [split; reflexivity | exact Hpath
      | exact Hvalid | apply selection_raises_iff; now exists column].
  - intros H. unfold refresh_preview.
    cbn [excel_path with_significant_figures].
    destruct (excel_path self) as [path|]; [|split; reflexivity].
    destruct H as [H | H]; [discriminate|].
    change (validate_settings (with_significant_figures self
              (dict_set (significant_figures self) column v)) false)
      with (validate_settings self false).
    rewrite H. split; reflexivity.
Qed.

(** Whatever is typed, [apply_sig_fig] never stores a precision that is
    zero or negative: entries that are positive stay so, and an entry that is
    empty, not an integer or not positive leaves the state as it is and
    opens one dialog. *)
Theorem apply_sig_fig_keeps_positive (self : App) (selection : option str)
        (text : str) (read : read_result) :
  (all_positive (significant_figures self) ->
   all_positive (significant_figures
                   (fst (apply_sig_fig strip int self selection text read))))
  /\ (forall rejected,
         int (strip text) = None
         \/ (int (strip text) = Some rejected /\ (rejected <= 0)%Z)
         \/ strip text = [] ->
         fst (apply_sig_fig strip int self selection text read) = self
         /\ length (snd (apply_sig_fig strip int self selection text read)) = 1).
Proof.
  split.
  - intros H. unfold apply_sig_fig.
    destruct selection as [column|]; [|exact H].
    destruct (negb (PyStr.truthy (strip text))); [exact H|].
    destruct (int (strip text)) as [v|]; [|exact H].
    destruct (Z.leb_spec v 0) as [Hle|Hgt]; [exact H|].
    apply refresh_preview_all_positive.
    cbn [with_significant_figures significant_figures].
    now apply all_positive_set.
  - intros rejected H. unfold apply_sig_fig.
    destruct selection as [column|]; [|split; reflexivity].
    destruct (strip text) as [|c s] eqn:Hs; cbn [PyStr.truthy negb];
      [split; reflexivity|].
    destruct H as [H | [[H Hle] | H]]; [| |discriminate]; rewrite H.
    + split; reflexivity.
    + destruct (Z.leb_spec rejected 0) as [_|Hgt]; [|lia].
      split; reflexivity.
Qed.

End SigFigEntryFacts.

Lemma apply_sig_fig_stores_three :
  dict_get (significant_figures
              (fst (apply_sig_fig (fun s => s) (fun _ => Some 3%Z) default_app
                      (Some (lit "n")) (lit "3") (ReadOk df_hello))))
           (lit "n") = Some 3%Z
  /\ (forall other,
         other <> lit "n" -> In other (columns df_hello) ->
         dict_get (significant_figures
                     (fst (apply_sig_fig (fun s => s) (fun _ => Some 3%Z)
                             default_app (Some (lit "n")) (lit "3")
                             (ReadOk df_hello))))
                  other
         = dict_get (significant_figures default_app) other)
  /\ (excel_path default_app <> None ->
      fst (validate_settings default_app false) = true ->
      snd (apply_sig_fig (fun s => s) (fun _ => Some 3%Z) default_app
             (Some (lit "n")) (lit "3") (ReadOk df_hello))
      = [showerror (lit "Preview error")
                   (lit "Unable to generate preview: " ++ INDEX_ERROR)]
      /\ preview_text
           (fst (apply_sig_fig (fun s => s) (fun _ => Some 3%Z) default_app
                   (Some (lit "n")) (lit "3") (ReadOk df_hello)))
         = preview_text default_app)
  /\ (excel_path default_app = None
      \/ fst (validate_settings default_app false) = false ->
      snd (apply_sig_fig (fun s => s) (fun _ => Some 3%Z) default_app
             (Some (lit "n")) (lit "3") (ReadOk df_hello)) = []
      /\ preview_text
           (fst (apply_sig_fig (fun s => s) (fun _ => Some 3%Z) default_app
                   (Some (lit "n")) (lit "3") (ReadOk df_hello)))
         = preview_text default_app).
Proof.
  apply (apply_sig_fig_stores (fun s => s) (fun _ => Some 3%Z) default_app
           (lit "n") (lit "3") df_hello 3%Z).
  - discriminate.
  - reflexivity.
  - reflexivity.
  - simpl. now left.
Defined.

(** After [clear_sig_fig] the column has no precision, so a number in it
    is written in its natural representation; the other columns of the frame
    keep theirs.  With a workbook selected and valid settings, the refresh
    that follows fails when the cleared column is a column of the frame: the
    "Preview error" dialog opens and the preview text stays as it was. *)
Theorem clear_sig_fig_clears (self : App) (column : str) (df : DataFrame) :
  dict_get (significant_figures
              (fst (clear_sig_fig self (Some column) (ReadOk df))))
           column = None
  /\ (forall n,
         num_isna n = false ->
         convert_value
           (significant_figures
              (fst (clear_sig_fig self (Some column) (ReadOk df))))
           (VNumber n) column = Ok (num_str n, false))
  /\ (forall other,
         other <> column -> In other (columns df) ->
         dict_get (significant_figures
                     (fst (clear_sig_fig self (Some column) (ReadOk df))))
                  other
         = dict_get (significant_figures self) other)
  /\ (excel_path self <> None ->
      fst (validate_settings self false) = true ->
      In column (columns df) ->
      snd (clear_sig_fig self (Some column) (ReadOk df))
      = [showerror (lit "Preview error")
                   (lit "Unable to generate preview: " ++ INDEX_ERROR)]
      /\ preview_text (fst (clear_sig_fig self (Some column) (ReadOk df)))
         = preview_text self)
  /\ (excel_path self = None \/ fst (validate_settings self false) = false ->
      snd (clear_sig_fig self (Some column) (ReadOk df)) = []
      /\ preview_text (fst (clear_sig_fig self (Some column) (ReadOk df)))
         = preview_text self).
Proof.
  assert (Hnone :
    dict_get (significant_figures
                (fst (clear_sig_fig self (Some column) (ReadOk df))))
             column = None).
  { unfold clear_sig_fig. apply refresh_preview_dict_none.
    cbn [with_significant_figures significant_figures].
    unfold dict_mem.
    destruct (dict_get (significant_figures self) column) eqn:E;
      [apply dict_get_del_same | exact E]. }
  split; [exact Hnone | split; [|split; [|split]]].
  - intros n Hna. unfold convert_value. cbn [pd_isna]. rewrite Hna, Hnone.
    reflexivity.
  - intros other Hother Hin. unfold clear_sig_fig.
    rewrite refresh_preview_dict_get by exact Hin.
    cbn [with_significant_figures significant_figures].
    destruct (dict_mem (significant_figures self) column); [|reflexivity].
    now apply dict_get_del_other.
  - intros Hpath Hvalid Hin. unfold clear_sig_fig.
    rewrite refresh_preview_raised; [split; reflexivity | exact Hpath
      | exact Hvalid | apply selection_raises_iff; now exists column].
  - intros H. unfold clear_sig_fig, refresh_preview.
    cbn [excel_path with_significant_figures].
    destruct (excel_path self) as [path|]; [|split; reflexivity].
    destruct H as [H | H]; [discriminate|].
    match goal with
    | |- context [validate_settings ?a false] =>
        change (validate_settings a false) with (validate_settings self false)
    end.
    rewrite H. split; reflexivity.
Qed.

(** ** Precisions outside the accepted range *)

(** The configuration file is loaded unchecked.  With a negative or an
    oversized precision the rounding step raises and the number is written in
    its natural representation; a precision of zero formats as a precision of
    one. *)
Theorem out_of_range_precision (n : Number) :
  (forall p, (p < 0 \/ PyFloat.INT_MAX < p)%Z ->
             format_number n (Some p) = Ok (num_str n))
  /\ format_number n (Some 0%Z) = format_number n (Some 1%Z).
Proof.
  split.
  - intros p Hp. unfold format_number.
    destruct (num_float n) as [x|e]; cbn [bind]; [|reflexivity].
    unfold PyFloat.format_g.
    destruct (Z.ltb_spec p 0) as [_|Hge]; [reflexivity|].
    destruct (Z.ltb_spec PyFloat.INT_MAX p) as [_|Hle]; [reflexivity|lia].
  - reflexivity.
Qed.

(** ** What the trimming of [format_number] removes *)

Lemma rstrip_app (c : char) (s t : str) :
  PyStr.rstrip c (s ++ t)
  = match PyStr.rstrip c t with
    | [] => PyStr.rstrip c s
    | r => s ++ r
    end.
Proof.
  induction s as [|a s IH]; simpl.
  - now destruct (PyStr.rstrip c t).
  - rewrite IH. destruct (PyStr.rstrip c t) as [|r0 r]; [reflexivity|].
    now destruct s.
Qed.

Lemma rstrip_repeat (c : char) (k : nat) :
  PyStr.rstrip c (List.repeat c k) = [].
Proof.
  induction k as [|k IH]; simpl; [reflexivity|].
  now rewrite IH, N.eqb_refl.
Qed.

Lemma rstrip_keep_then_repeat (c x : char) (s : str) (k : nat) :
  x <> c -> PyStr.rstrip c (s ++ x :: List.repeat c k) = s ++ [x].
Proof.
  intros Hx. rewrite rstrip_app. simpl. rewrite rstrip_repeat.
  apply N.eqb_neq in Hx. now rewrite Hx.
Qed.

Lemma occurs_app_l (sub s t : str) : occurs sub s -> occurs sub (s ++ t).
Proof.
  intros [pre [post ->]]. exists pre, (post ++ t).
  now rewrite <- !app_assoc.
Qed.

(** When the formatted text holds a decimal point, every zero at its end
    is removed, wherever the point is: the zeros after the last digit of a
    fraction, and just as well the zeros that end an exponent. *)
Theorem strip_decimals_takes_all_trailing_zeros (s : str) (x : char) (k : nat) :
  occurs (lit ".") s -> x <> 48%N -> x <> 46%N ->
  strip_decimals (s ++ x :: List.repeat 48%N k) = s ++ [x].
Proof.
  intros Hdot H0 Hp. unfold strip_decimals.
  assert (Hc : PyStr.contains (lit ".") (s ++ x :: List.repeat 48%N k) = true).
  { apply contains_spec. now apply occurs_app_l. }
  rewrite Hc, rstrip_keep_then_repeat by exact H0.
  replace (s ++ [x]) with (s ++ x :: List.repeat 46%N 0) by reflexivity.
  rewrite rstrip_keep_then_repeat by exact Hp.
  now destruct s.
Qed.

Lemma strip_decimals_takes_exponent_zero :
  strip_decimals (lit "1.5e+" ++ 49%N :: List.repeat 48%N 1)
  = lit "1.5e+" ++ [49%N].
Proof.
  apply (strip_decimals_takes_all_trailing_zeros (lit "1.5e+") 49%N 1).
  - exists (lit "1"), (lit "5e+"). reflexivity.
  - discriminate.
  - discriminate.
Defined.

(** ** Output options *)

(** Whatever the labels hold, the output is encoded with one of the four
    supported codecs and every line ends with the line separator of the
    system, a line feed, or a carriage return and a line feed. *)
Theorem output_options_closed (encoding_label line_ending_label linesep : str) :
  In (output_encoding encoding_label) (map snd SUPPORTED_ENCODINGS)
  /\ (output_newline line_ending_label linesep = linesep
      \/ output_newline line_ending_label linesep = [LF]
      \/ output_newline line_ending_label linesep = [CR; LF])
  /\ (~ In encoding_label (map fst SUPPORTED_ENCODINGS) ->
      output_encoding encoding_label = lit "utf-8")
  /\ (~ In line_ending_label (map fst LINE_ENDING_OPTIONS) ->
      output_newline line_ending_label linesep = linesep).
Proof.
  unfold output_encoding, output_newline, SUPPORTED_ENCODINGS,
    LINE_ENDING_OPTIONS. cbn [lookup map fst snd].
  repeat split.
  - repeat match goal with
           | |- context [PyStr.eqb ?a encoding_label] =>
               destruct (PyStr.eqb a encoding_label)
           end; simpl; auto.
  - repeat match goal with
           | |- context [PyStr.eqb ?a line_ending_label] =>
               destruct (PyStr.eqb a line_ending_label)
           end; auto.
  - intros Hnot.
    repeat match goal with
           | |- context [PyStr.eqb ?a encoding_label] =>
               let E := fresh "E" in
               destruct (PyStr.eqb a encoding_label) eqn:E;
                 [apply eqb_eq in E; exfalso; apply Hnot; simpl; tauto|]
           end; reflexivity.
  - intros Hnot.
    repeat match goal with
           | |- context [PyStr.eqb ?a line_ending_label] =>
               let E := fresh "E" in
               destruct (PyStr.eqb a line_ending_label) eqn:E;
                 [apply eqb_eq in E; exfalso; apply Hnot; simpl; tauto|]
           end; reflexivity.
Qed.

(** ** The configuration across sessions *)

(** For a configuration whose fields are strings, the window starts with
    a separator choice, a quote choice, an encoding and a line ending that are
    among the offered ones: a value that is offered is kept, any other is
    replaced by the comma, the double quote, "UTF-8" and "Auto (OS default)". *)
Theorem create_widgets_sanitises (config : AppConfig) :
  In (separator_var (win_app (create_widgets config))) separator_options
  /\ In (quote_choice_var (win_app (create_widgets config))) quote_options
  /\ In (encoding_var (create_widgets config)) (map fst SUPPORTED_ENCODINGS)
  /\ In (line_ending_var (create_widgets config))
        (map fst LINE_ENDING_OPTIONS)
  /\ (In (separator_choice config) separator_options ->
      separator_var (win_app (create_widgets config))
      = separator_choice config)
  /\ (~ In (separator_choice config) separator_options ->
      separator_var (win_app (create_widgets config)) = lit ",")
  /\ (In (quote_choice config) quote_options ->
      quote_choice_var (win_app (create_widgets config)) = quote_choice config)
  /\ (~ In (quote_choice config) quote_options ->
      quote_choice_var (win_app (create_widgets config)) = [DQUOTE])
  /\ (In (encoding config) (map fst SUPPORTED_ENCODINGS) ->
      encoding_var (create_widgets config) = encoding config)
  /\ (~ In (encoding config) (map fst SUPPORTED_ENCODINGS) ->
      encoding_var (create_widgets config) = lit "UTF-8")
  /\ (In (line_ending config) (map fst LINE_ENDING_OPTIONS) ->
      line_ending_var (create_widgets config) = line_ending config)
  /\ (~ In (line_ending config) (map fst LINE_ENDING_OPTIONS) ->
      line_ending_var (create_widgets config) = lit "Auto (OS default)").
Proof.
  unfold create_widgets, or_else.
  cbn [win_app separator_var quote_choice_var encoding_var line_ending_var].
  rewrite <- !mem_In.
  destruct (mem (separator_choice config) separator_options) eqn:E1;
    destruct (mem (quote_choice config) quote_options) eqn:E2;
    destruct (mem (encoding config) (map fst SUPPORTED_ENCODINGS)) eqn:E3;
    destruct (mem (line_ending config) (map fst LINE_ENDING_OPTIONS)) eqn:E4;
    repeat split; intros; try reflexivity; try congruence;
    try (apply mem_In; assumption); simpl; auto.
Qed.

(** The configuration written by [on_close] brings the next session back
    to the same settings: the same choices and precisions, the same verdict of
    [validate_settings] and the same serialization of any frame. *)
Theorem settings_survive_restart (w : Window) :
  In (separator_var (win_app w)) separator_options ->
  In (quote_choice_var (win_app w)) quote_options ->
  In (encoding_var w) (map fst SUPPORTED_ENCODINGS) ->
  In (line_ending_var w) (map fst LINE_ENDING_OPTIONS) ->
  let w' := create_widgets (on_close w) in
  separator_var (win_app w') = separator_var (win_app w)
  /\ custom_separator_var (win_app w') = custom_separator_var (win_app w)
  /\ quoting_mode_var (win_app w') = quoting_mode_var (win_app w)
  /\ quote_choice_var (win_app w') = quote_choice_var (win_app w)
  /\ custom_quote_var (win_app w') = custom_quote_var (win_app w)
  /\ significant_figures (win_app w') = significant_figures (win_app w)
  /\ encoding_var w' = encoding_var w
  /\ line_ending_var w' = line_ending_var w
  /\ (forall show_dialog,
         validate_settings (win_app w') show_dialog
         = validate_settings (win_app w) show_dialog)
  /\ (forall df limit progress_callback,
         iter_csv_lines (win_app w') df limit progress_callback
         = iter_csv_lines (win_app w) df limit progress_callback).
Proof.
  intros Hsep Hquote Henc Hle.
  apply mem_In in Hsep, Hquote, Henc, Hle.
  destruct w as [[sv csv qm qc cq sf path pt] ev lv shv].
  cbn [win_app separator_var quote_choice_var encoding_var line_ending_var]
    in Hsep, Hquote, Henc, Hle.
  unfold create_widgets, on_close, or_else.
  cbn [win_app separator_var custom_separator_var quoting_mode_var
       quote_choice_var custom_quote_var significant_figures excel_path
       encoding_var line_ending_var sheet_var last_file separator_choice
       custom_separator quoting_mode quote_choice custom_quote encoding
       line_ending sheet_name cfg_significant_figures].
  rewrite Hsep, Hquote, Henc, Hle.
  repeat split; reflexivity.
Qed.

Lemma settings_survive_restart_default :
  let w' := create_widgets (on_close default_window) in
  separator_var (win_app w') = separator_var (win_app default_window)
  /\ custom_separator_var (win_app w')
     = custom_separator_var (win_app default_window)
  /\ quoting_mode_var (win_app w') = quoting_mode_var (win_app default_window)
  /\ quote_choice_var (win_app w') = quote_choice_var (win_app default_window)
  /\ custom_quote_var (win_app w') = custom_quote_var (win_app default_window)
  /\ significant_figures (win_app w')
     = significant_figures (win_app default_window)
  /\ encoding_var w' = encoding_var default_window
  /\ line_ending_var w' = line_ending_var default_window
  /\ (forall show_dialog,
         validate_settings (win_app w') show_dialog
         = validate_settings (win_app default_window) show_dialog)
  /\ (forall df limit progress_callback,
         iter_csv_lines (win_app w') df limit progress_callback
         = iter_csv_lines (win_app default_window) df limit progress_callback).
Proof.
  apply (settings_survive_restart default_window); simpl; tauto.
Defined.

(** ** Reading the lines back *)

Section ReadBack.

Variables s qc : char.
Hypothesis s_not_quote : s <> qc.

Lemma read_unquoted_rest (text cur tail : str) :
  ~ In s text -> tail_ok s tail ->
  read_fields s qc Unquoted cur (text ++ tail)
  = after_field s qc (cur ++ text) tail.
Proof.
  intros Hs Htail. revert cur.
  induction text as [|c text IH]; intros cur; simpl.
  - rewrite app_nil_r. destruct Htail as [-> | [more ->]]; simpl.
    + reflexivity.
    + now rewrite N.eqb_refl.
  - assert (Hc : N.eqb c s = false).
    { apply N.eqb_neq. intros ->. apply Hs. now left. }
    rewrite Hc, IH, <- app_assoc; [reflexivity|].
    intros H. apply Hs. now right.
Qed.

Lemma read_unquoted_field (text tail : str) :
  ~ In s text -> ~ In qc text -> tail_ok s tail ->
  read_fields s qc FieldStart [] (text ++ tail) = after_field s qc text tail.
Proof.
  intros Hs Hq Htail. destruct text as [|c text]; simpl.
  - destruct Htail as [-> | [more ->]]; simpl; [reflexivity|].
    apply N.eqb_neq in s_not_quote. now rewrite s_not_quote, N.eqb_refl.
  - assert (Hcq : N.eqb c qc = false).
    { apply N.eqb_neq. intros ->. apply Hq. now left. }
    assert (Hcs : N.eqb c s = false).
    { apply N.eqb_neq. intros ->. apply Hs. now left. }
    rewrite Hcq, Hcs. apply (read_unquoted_rest text [c] tail); [|exact Htail].
    intros H. apply Hs. now right.
Qed.

Lemma read_quoted_rest (text cur tail : str) :
  tail_ok s tail ->
  read_fields s qc Quoted cur (doubled qc text ++ qc :: tail)
  = after_field s qc (cur ++ text) tail.
Proof.
  intros Htail. revert cur.
  induction text as [|c text IH]; intros cur; simpl.
  - rewrite N.eqb_refl, app_nil_r.
    destruct Htail as [-> | [more ->]]; simpl; [reflexivity|].
    apply N.eqb_neq in s_not_quote. now rewrite s_not_quote, N.eqb_refl.
  - destruct (N.eqb c qc) eqn:E; simpl.
    + apply N.eqb_eq in E. subst c. rewrite !N.eqb_refl.
      now rewrite IH, <- app_assoc.
    + now rewrite E, IH, <- app_assoc.
Qed.

Lemma read_formatted_cell (mode : str) (cell : str * bool) (tail : str) :
  tail_ok s tail ->
  read_fields s qc FieldStart []
    (format_cell [s] mode [qc] cell ++ tail)
  = after_field s qc (fst cell) tail.
Proof.
  intros Htail. destruct cell as [text is_text]. unfold format_cell.
  destruct (needs_quote [s] mode [qc] text is_text) eqn:Hn.
  - rewrite escape_text_single. cbn [fst app read_fields].
    rewrite N.eqb_refl, <- app_assoc. cbn [app].
    apply (read_quoted_rest text [] tail Htail).
  - cbn [fst]. apply read_unquoted_field; [| |exact Htail].
    + intros Hin. apply occurs_char in Hin.
      assert (H : needs_quote [s] mode [qc] text is_text = true);
        [|congruence].
      apply structural_needs_quote; try reflexivity. now left.
    + intros Hin. apply occurs_char in Hin.
      assert (H : needs_quote [s] mode [qc] text is_text = true);
        [|congruence].
      apply structural_needs_quote; try reflexivity. now right; right.
Qed.

Lemma read_formatted_cells (mode : str) (cells : list (str * bool)) :
  cells <> [] ->
  read_line s qc (format_cells [s] mode [qc] cells) = map fst cells.
Proof.
  unfold read_line, format_cells.
  induction cells as [|cell rest IH]; [congruence|]. intros _.
  destruct rest as [|cell' rest].
  - cbn [map PyStr.join].
    rewrite <- (app_nil_r (format_cell [s] mode [qc] cell)).
    rewrite read_formatted_cell by (now left). reflexivity.
  - change (PyStr.join [s] (map (format_cell [s] mode [qc])
                                (cell :: cell' :: rest)))
      with (format_cell [s] mode [qc] cell
              ++ s :: PyStr.join [s] (map (format_cell [s] mode [qc])
                                          (cell' :: rest))).
    rewrite read_formatted_cell by (right; eauto).
    cbn [after_field]. unfold read_line. rewrite IH by discriminate.
    reflexivity.
Qed.

End ReadBack.

(** With a one-character separator that is not the quote character, every
    line of a pass can be split back into the texts of its fields: the header
    into the column names and the line of a row into the texts its cells were
    formatted to.  This holds in every quoting mode, for fields that hold
    separators, quotes or line breaks as for the others. *)
Theorem lines_read_back (self : App) (df : DataFrame) (s qc : char) :
  effective_separator self = [s] -> effective_quote_char self = [qc] ->
  s <> qc ->
  (columns df <> [] ->
   read_line s qc
     (header_line (effective_separator self) (quoting_mode_var self)
        (effective_quote_char self) (columns df))
   = columns df)
  /\ (forall row,
         row_cells (significant_figures self) (columns df) row <> [] ->
         read_line s qc
           (row_line (effective_separator self) (quoting_mode_var self)
              (effective_quote_char self) (significant_figures self)
              (columns df) row)
         = map fst (row_cells (significant_figures self) (columns df) row)).
Proof.
  intros -> -> Hne. split.
  - intros Hcols. unfold header_line.
    rewrite read_formatted_cells.
    + rewrite map_map. cbn [fst]. apply map_id.
    + exact Hne.
    + destruct (columns df); [congruence | discriminate].
  - intros row Hrow. unfold row_line.
    now apply read_formatted_cells.
Qed.

Lemma lines_read_back_default :
  (columns df_hello <> [] ->
   read_line 44%N DQUOTE
     (header_line (effective_separator default_app)
        (quoting_mode_var default_app)
        (effective_quote_char default_app) (columns df_hello))
   = columns df_hello)
  /\ (forall row,
         row_cells (significant_figures default_app) (columns df_hello) row
           <> [] ->
         read_line 44%N DQUOTE
           (row_line (effective_separator default_app)
              (quoting_mode_var default_app)
              (effective_quote_char default_app)
              (significant_figures default_app) (columns df_hello) row)
         = map fst
             (row_cells (significant_figures default_app)
                        (columns df_hello) row)).
Proof.
  apply (lines_read_back default_app df_hello 44%N DQUOTE).
  - reflexivity.
  - reflexivity.
  - discriminate.
Defined.

(** ** When a date-time is written as a date *)

Lemma timestamp_isoformat_longer (ts : Timestamp) :
  length (date_isoformat (dt_date (ts_datetime ts)))
  < length (timestamp_isoformat ts).
Proof.
  unfold timestamp_isoformat.
  set (base := datetime_isoformat (ts_datetime ts)).
  assert (Hbase : length (date_isoformat (dt_date (ts_datetime ts)))
                  < length base).
  { unfold base, datetime_isoformat. rewrite !length_app. simpl. lia. }
  destruct (N.eqb (nanosecond ts) 0); [exact Hbase|].
  destruct (dt_tzinfo (ts_datetime ts)).
  - rewrite <- (firstn_skipn (length base - 6) base) in Hbase.
    rewrite length_app in Hbase.
    destruct (N.eqb (microsecond (ts_datetime ts)) 0);
      rewrite !length_app; lia.
  - destruct (N.eqb (microsecond (ts_datetime ts)) 0);
      rewrite !length_app; simpl; lia.
Qed.

Lemma datetime_isoformat_longer (d : datetime) :
  length (date_isoformat (dt_date d)) < length (datetime_isoformat d).
Proof. unfold datetime_isoformat. rewrite !length_app. simpl. lia. Qed.

Ltac settle_date_case Hlen :=
  let H := fresh "H" in
  let Heq := fresh "Heq" in
  intros H;
  first
    [ reflexivity
    | split; reflexivity
    | destruct H; discriminate
    | intros [? ?]; discriminate
    | exfalso; apply H; split; reflexivity
    | exfalso; inversion H as [Heq]; rewrite Heq in Hlen; lia
    | exfalso; inversion H as [Heq]; rewrite <- Heq in Hlen; lia ].

Lemma at_midnight_iff (d : datetime) :
  at_midnight d = true
  <-> hour d = 0%N /\ minute d = 0%N /\ second d = 0%N /\ microsecond d = 0%N.
Proof.
  unfold at_midnight. rewrite !andb_true_iff, !N.eqb_eq. tauto.
Qed.

(** A [datetime] is written as a bare date exactly when it is naive and
    its hour, minute, second and microsecond are all zero; a [Timestamp]
    exactly when it is naive and those four fields are zero, whatever its
    nanoseconds.  In every other case the text written is the ISO form with
    the time. *)
Theorem date_only_iff_naive_midnight (sig : dict) (column : str) :
  (forall d,
      (convert_value sig (VDatetime d) column
       = Ok (date_isoformat (dt_date d), false)
       <-> dt_tzinfo d = None
           /\ hour d = 0%N /\ minute d = 0%N /\ second d = 0%N
           /\ microsecond d = 0%N)
      /\ (convert_value sig (VDatetime d) column
          = Ok (datetime_isoformat d, false)
          <-> ~ (dt_tzinfo d = None
                 /\ hour d = 0%N /\ minute d = 0%N /\ second d = 0%N
                 /\ microsecond d = 0%N)))
  /\ (forall ts,
         (convert_value sig (VTimestamp ts) column
          = Ok (date_isoformat (dt_date (ts_datetime ts)), false)
          <-> dt_tzinfo (ts_datetime ts) = None
              /\ hour (ts_datetime ts) = 0%N
              /\ minute (ts_datetime ts) = 0%N
              /\ second (ts_datetime ts) = 0%N
              /\ microsecond (ts_datetime ts) = 0%N)
         /\ (convert_value sig (VTimestamp ts) column
             = Ok (timestamp_isoformat ts, false)
             <-> ~ (dt_tzinfo (ts_datetime ts) = None
                    /\ hour (ts_datetime ts) = 0%N
                    /\ minute (ts_datetime ts) = 0%N
                    /\ second (ts_datetime ts) = 0%N
                    /\ microsecond (ts_datetime ts) = 0%N))).
Proof.
  split.
  - intros d. rewrite <- at_midnight_iff.
    pose proof (datetime_isoformat_longer d) as Hlen.
    unfold convert_value. cbn [pd_isna].
    destruct (dt_tzinfo d) as [tz|]; [|destruct (at_midnight d)];
      split; split; settle_date_case Hlen.
  - intros ts. rewrite <- at_midnight_iff.
    pose proof (timestamp_isoformat_longer ts) as Hlen.
    unfold convert_value. cbn [pd_isna].
    destruct (dt_tzinfo (ts_datetime ts)) as [tz|];
      [|destruct (at_midnight (ts_datetime ts))];
      split; split; settle_date_case Hlen.
Qed.

(** ** Which states fail validation *)

Ltac closed_eqb :=
  repeat match goal with
         | |- context [PyStr.eqb ?a ?b] =>
             let v := eval vm_compute in (PyStr.eqb a b) in
             progress change (PyStr.eqb a b) with v
         end.

Ltac not_custom :=
  let E := fresh "E" in
  intros [E _]; vm_compute in E; discriminate E.

Lemma get_separator_empty_iff (self : App) :
  In (separator_var self) separator_options ->
  (truthy_opt (get_separator self) = false
   <-> separator_var self = CUSTOM /\ custom_separator_var self = []).
Proof.
  intros H. unfold get_separator. simpl in H.
  destruct H as [H|[H|[H|[H|[H|[H|[]]]]]]]; rewrite <- H; closed_eqb;
    cbn [truthy_opt PyStr.truthy];
    try (split; [discriminate | not_custom]).
  destruct (custom_separator_var self) as [|c s]; cbn [truthy_opt PyStr.truthy].
  - split; [intros _; split; reflexivity | reflexivity].
  - split; [discriminate | intros [_ E]; discriminate E].
Qed.

Lemma get_quote_char_cases (self : App) :
  In (quote_choice_var self) quote_options ->
  (truthy_opt (get_quote_char self) = false
   <-> quote_choice_var self = CUSTOM /\ custom_quote_var self = [])
  /\ (Nat.eqb (opt_len (get_quote_char self)) 1 = false
      <-> quote_choice_var self = CUSTOM
          /\ (custom_quote_var self = [] \/ 2 <= length (custom_quote_var self))).
Proof.
  intros H. unfold get_quote_char. simpl in H.
  destruct H as [H|[H|[H|[H|[]]]]]; rewrite <- H; closed_eqb;
    cbn [truthy_opt PyStr.truthy opt_len length Nat.eqb];
    try (split; (split; [discriminate | not_custom])).
  destruct (custom_quote_var self) as [|c [|c' s]];
    cbn [truthy_opt PyStr.truthy opt_len length Nat.eqb].
  - split; split; auto.
  - split; (split; [discriminate|]).
    + intros [_ E]; discriminate E.
    + intros [_ [E | E]]; [discriminate E | simpl in E; lia].
  - split; split; try discriminate.
    + intros [_ E]; discriminate E.
    + intros _. split; [reflexivity | right; simpl; lia].
    + reflexivity.
Qed.

(** The two choices are made in read-only boxes, so they are among the
    offered ones.  Validation then fails only through the custom entries: the
    custom separator is selected and empty, or the custom quote is selected
    and is empty in a mode other than "none", or is longer than one
    character. *)
Theorem validation_fails_only_on_custom_entries (self : App) :
  In (separator_var self) separator_options ->
  In (quote_choice_var self) quote_options ->
  (fst (validate_settings self false) = false
   <-> (separator_var self = CUSTOM /\ custom_separator_var self = [])
       \/ (quote_choice_var self = CUSTOM
           /\ ((custom_quote_var self = []
                /\ quoting_mode_var self <> lit "none")
               \/ 2 <= length (custom_quote_var self)))).
Proof.
  intros Hsep Hquote.
  pose proof (get_separator_empty_iff self Hsep) as Hs.
  destruct (get_quote_char_cases self Hquote) as [Hq Hlen].
  rewrite <- eqb_neq.
  unfold validate_settings.
  destruct (truthy_opt (get_separator self));
    destruct (truthy_opt (get_quote_char self));
    destruct (Nat.eqb (opt_len (get_quote_char self)) 1);
    destruct (PyStr.eqb (quoting_mode_var self) (lit "none"));
    cbn [negb andb fst]; try (intuition congruence).
  destruct Hq as [Hq _]. destruct (Hq eq_refl) as [_ E].
  rewrite E. cbn [length]. intuition (congruence || lia).
Qed.

Lemma validation_fails_only_on_custom_entries_sample :
  fst (validate_settings no_separator_app false) = false
  <-> (separator_var no_separator_app = CUSTOM
       /\ custom_separator_var no_separator_app = [])
      \/ (quote_choice_var no_separator_app = CUSTOM
          /\ ((custom_quote_var no_separator_app = []
               /\ quoting_mode_var no_separator_app <> lit "none")
              \/ 2 <= length (custom_quote_var no_separator_app))).
Proof.
  apply (validation_fails_only_on_custom_entries no_separator_app);
    simpl; tauto.
Defined.

(** ** How often progress is reported *)

Lemma every_1000th_count (n : nat) :
  length (filter every_1000th (seq 1 n)) = n / 1000.
Proof.
  induction n as [|n IH]; [reflexivity|].
  rewrite seq_S, filter_app, length_app, IH.
  cbn [filter]. unfold every_1000th.
  pose proof (Nat.div_mod_eq n 1000) as Hn.
  pose proof (Nat.mod_upper_bound n 1000) as Hr.
  pose proof (Nat.div_mod_eq (1 + n) 1000) as Hn'.
  pose proof (Nat.mod_upper_bound (1 + n) 1000) as Hr'.
  change (S n) with (1 + n).
  destruct (Nat.eqb_spec ((1 + n) mod 1000) 0) as [E|E]; cbn [length]; lia.
Qed.

(** A pass without row limit over [total] rows calls the progress
    callback [total / 1000 + 2] times. *)
Theorem progress_call_count (self : App) (df : DataFrame) :
  length (progress_calls (iter_csv_lines self df None true))
  = length (rows df) / 1000 + 2.
Proof.
  rewrite progress_iter_csv_lines. cbn [length].
  rewrite length_app, length_map, every_1000th_count. cbn [length]. lia.
Qed.

(** ** One precision per column *)

(** Setting or clearing the precision of one column does not change how
    the cells of any other column are formatted. *)
Theorem precision_is_per_column (sig : dict) (column other : str) (p : Z)
        (v : value) :
  other <> column ->
  convert_value (dict_set sig column p) v other = convert_value sig v other
  /\ convert_value (dict_del sig column) v other = convert_value sig v other.
Proof.
  intros Hne. split; apply convert_value_ext.
  - now apply dict_get_set_other.
  - now apply dict_get_del_other.
Qed.

Lemma precision_is_per_column_sample :
  convert_value (dict_set [] (lit "n") 3%Z) (VNumber n_3_14159) (lit "m")
  = convert_value [] (VNumber n_3_14159) (lit "m")
  /\ convert_value (dict_del [] (lit "n")) (VNumber n_3_14159) (lit "m")
     = convert_value [] (VNumber n_3_14159) (lit "m").
Proof.
  apply (precision_is_per_column [] (lit "n") (lit "m") 3%Z
           (VNumber n_3_14159)).
  discriminate.
Defined.
